(** * japi-core: typed handlers, middleware composition, route bookkeeping

    A shallow embedding of the Go packages [handler], [core] and [db] of
    japi-core, and the properties of the handler/middleware engine stated
    over it.

    Conventions of the embedding:
    - a Go [int] is a [Z]; a [time.Duration] is a [Z] of nanoseconds;
    - a Go [error] is a value of [error] below, [nil] is [None];
    - a nil-able pointer or interface is an [option];
    - [var zero T] is [zero] of the class [Zero];
    - calls on [http.ResponseWriter] and on loggers are recorded, in order,
      in the [World] that every handler threads;
    - a Go call that may panic returns a [Completion]. *)

From Stdlib Require Import ZArith String Ascii List DecimalString Permutation.
From stdpp Require Import gmap strings list.

Set Warnings "-register-all".

Open Scope Z_scope.
Open Scope string_scope.
Open Scope list_scope.

(* ===================================================================== *)
(** ** Go basics: zero values, errors, panics                            *)
(* ===================================================================== *)

(** The zero value of a Go type ([var zero T]). *)
Class Zero (T : Type) := zero : T.

#[global] Instance Zero_Z : Zero Z := 0.
#[global] Instance Zero_bool : Zero bool := false.
#[global] Instance Zero_string : Zero string := "".
#[global] Instance Zero_unit : Zero unit := tt.
#[global] Instance Zero_list {A} : Zero (list A) := [].
#[global] Instance Zero_option {A} : Zero (option A) := None.
#[global] Instance Zero_gmap {K} `{Countable K} {V} : Zero (gmap K V) :=
  (∅ : gmap K V).

(** The two sentinel errors of package [context]. *)
Inductive Sentinel := context_Canceled | context_DeadlineExceeded.

Definition Sentinel_eqb (a b : Sentinel) : bool :=
  match a, b with
  | context_Canceled, context_Canceled => true
  | context_DeadlineExceeded, context_DeadlineExceeded => true
  | _, _ => false
  end.

(** [core.APIError] (json tags: code, message, detail omitempty, fields
    omitempty).  [Fields] is a [map[string]string]. *)
Record APIError := mkAPIError {
  Code : Z;
  Message : string;
  Detail : string;
  Fields : gmap string string
}.

(** Go error values, by the way they are built:
    - a [context] sentinel;
    - a pointer to a [core.APIError];
    - [errors.New(text)], or [fmt.Errorf] without [%w]: a leaf with a text;
    - [fmt.Errorf("...%w...", inner)]: a wrapper with its formatted text,
      whose [Unwrap] is [inner];
    - [errors.Join(errs...)], or [fmt.Errorf] with several [%w]: a wrapper
      with its text, whose [Unwrap] is the list. *)
Inductive error :=
| ErrSentinel (s : Sentinel)
| ErrAPI (e : APIError)
| ErrText (text : string)
| ErrWrap (text : string) (inner : error)
| ErrJoin (text : string) (errs : list error).

(** [errors.Is(err, target)] for a sentinel target: walks the [Unwrap]
    tree depth first; only the sentinel itself compares equal to it
    ([core.APIError] has neither [Unwrap] nor [Is]). *)
Fixpoint errors_Is (err : error) (target : Sentinel) : bool :=
  match err with
  | ErrSentinel s => Sentinel_eqb s target
  | ErrAPI _ => false
  | ErrText _ => false
  | ErrWrap _ inner => errors_Is inner target
  | ErrJoin _ errs => existsb (fun e => errors_Is e target) errs
  end.

(** The type assertion of [err] to a pointer to [core.APIError]: it succeeds
    on the dynamic type only, never through a wrapper. *)
Definition as_APIError (err : error) : option APIError :=
  match err with
  | ErrAPI e => Some e
  | _ => None
  end.

(** A value handed to [panic], other than nil. *)
Inductive PanicValue :=
| PanicString (s : string)
| PanicError (e : error)
| PanicInt (n : Z).

(** How a Go call ends: it returns, or a panic leaves it. *)
Inductive Completion (T : Type) :=
| Returns (v : T)
| Panics (p : PanicValue).
Arguments Returns {T} v.
Arguments Panics {T} p.

(** [%d] of [fmt]. *)
Definition fmt_d (n : Z) : string := NilZero.string_of_int (Z.to_int n).

(** [APIError.Error()] (core/errors).  Go ranges over [e.Fields] in an
    unspecified order; the order of [map_to_list] stands for it. *)
Definition APIError_Error (e : APIError) : string :=
  let msg := "API Error " +:+ fmt_d (Code e) +:+ ": " +:+ Message e in
  let msg := if String.eqb (Detail e) "" then msg
             else msg +:+ " - " +:+ Detail e in
  if Nat.ltb 0 (size (Fields e)) then
    let fields :=
      List.map (fun kv => fst kv +:+ "=" +:+ snd kv) (map_to_list (Fields e)) in
    msg +:+ " [fields: " +:+ String.concat ", " fields +:+ "]"
  else msg.

Definition Sentinel_Error (s : Sentinel) : string :=
  match s with
  | context_Canceled => "context canceled"
  | context_DeadlineExceeded => "context deadline exceeded"
  end.

(** [err.Error()]. *)
Definition Error_text (err : error) : string :=
  match err with
  | ErrSentinel s => Sentinel_Error s
  | ErrAPI e => APIError_Error e
  | ErrText text => text
  | ErrWrap text _ => text
  | ErrJoin text _ => text
  end.

(* ===================================================================== *)
(** ** The boundary: context, net/http, log/slog, encoding/json          *)
(* ===================================================================== *)

(** A [context.Context] value. *)
Inductive Context :=
| context_Background
| context_WithValue (parent : Context) (key val : string)
| context_WithCancel (parent : Context) (id : nat)
| context_WithTimeout (parent : Context) (id : nat) (timeout : Z).

Record URL := mkURL {
  Path : string;
  RawQuery : string
}.

(** [http.Request], with the fields the framework reads.  [ctx] is the
    unexported context field, [None] when the request carries none. *)
Record Request := mkRequest {
  Method : string;
  Url : URL;
  RemoteAddr : string;
  Header : gmap string (list string);
  ctx : option Context
}.

(** [r.Context()] of net/http: the request's context, or the background
    context when the field is nil. *)
Definition Request_Context (r : Request) : Context :=
  match ctx r with
  | Some c => c
  | None => context_Background
  end.

(** [c.Value(key)] for a string key: the innermost [WithValue] under that
    key; contexts derived for cancellation or timeout ask their parent. *)
Fixpoint Context_Value (c : Context) (key : string) : option string :=
  match c with
  | context_Background => None
  | context_WithValue parent k v =>
      if String.eqb k key then Some v else Context_Value parent key
  | context_WithCancel parent _ => Context_Value parent key
  | context_WithTimeout parent _ _ => Context_Value parent key
  end.

(** [r.WithContext(c)]: the same request carrying [c]. *)
Definition Request_WithContext (r : Request) (c : Context) : Request :=
  mkRequest (Method r) (Url r) (RemoteAddr r) (Header r) (Some c).

Definition is_lower (c : ascii) : bool :=
  (Nat.leb 97 (nat_of_ascii c) && Nat.leb (nat_of_ascii c) 122)%bool.
Definition is_upper (c : ascii) : bool :=
  (Nat.leb 65 (nat_of_ascii c) && Nat.leb (nat_of_ascii c) 90)%bool.

(** [textproto.CanonicalMIMEHeaderKey] on a key of token characters: the
    first letter and every letter after a hyphen in upper case, the others
    in lower case. *)
Fixpoint canonical_from (upper : bool) (s : string) : string :=
  match s with
  | EmptyString => EmptyString
  | String c rest =>
      let c' :=
        if upper then
          (if is_lower c then ascii_of_nat (nat_of_ascii c - 32) else c)
        else
          (if is_upper c then ascii_of_nat (nat_of_ascii c + 32) else c) in
      String c' (canonical_from (Ascii.eqb c "-"%char) rest)
  end.

Definition CanonicalMIMEHeaderKey (s : string) : string := canonical_from true s.

(** [h.Get(key)]: the first value under the canonical key, or the empty
    string. *)
Definition Header_Get (h : gmap string (list string)) (key : string) : string :=
  match h !! CanonicalMIMEHeaderKey key with
  | Some (v :: _) => v
  | _ => ""
  end.

(** [r.UserAgent()]. *)
Definition Request_UserAgent (r : Request) : string :=
  Header_Get (Header r) "User-Agent".

(** A JSON document, as [encoding/json] renders the values written here. *)
Inductive json :=
| JNumber (n : Z)
| JString (s : string)
| JStringMap (m : gmap string string)
| JObject (members : list (string * json)).

(** What is handed to [w.Write]: raw bytes, or the document an
    [json.Encoder] serialises into [w] (followed by a newline). *)
Inductive Payload :=
| Bytes (b : string)
| Encoded (doc : json).

(** One call on the [http.ResponseWriter]. *)
Inductive ResponseCall :=
| SetHeader (key val : string)
| WriteHeader (status : Z)
| Write (body : Payload).

Inductive Level := LevelDebug | LevelInfo | LevelWarn | LevelError.

Inductive LogValue :=
| LBool (b : bool)
| LInt (n : Z)
| LString (s : string)
| LStringMap (m : gmap string string).

(** A [*slog.Logger] that is not nil. *)
Definition Logger := nat.

(** Where a log call goes: a logger value, or the package-level default
    ([slog.Info], [slog.Error], ...). *)
Inductive LogSink :=
| ToLogger (l : Logger)
| ToDefault.

(** One call of a leveled log method, with its key-value arguments. *)
Record LogCall := mkLogCall {
  sink : LogSink;
  level : Level;
  msg : string;
  args : list (string * LogValue)
}.

(** What a request leaves behind: the calls made on its response writer
    and the log calls, both in the order they were made. *)
Record World := mkWorld {
  response : list ResponseCall;
  logs : list LogCall
}.

Definition call_response (c : ResponseCall) (w : World) : World :=
  {| response := response w ++ [c]; logs := logs w |}.

Definition call_log (c : LogCall) (w : World) : World :=
  {| response := response w; logs := logs w ++ [c] |}.

Definition http_StatusOK : Z := 200.
Definition http_StatusBadRequest : Z := 400.
Definition http_StatusInternalServerError : Z := 500.
Definition http_StatusGatewayTimeout : Z := 504.

(** What an [httptest.ResponseRecorder] shows after a sequence of calls:
    [Code] is the status of the first [WriteHeader], an implicit 200 when a
    [Write] comes first, and 200 when nothing was written ([NewRecorder]
    starts at 200); [wrote] tells whether a header went out. *)
Fixpoint recorder_from (wrote : bool) (code : Z) (calls : list ResponseCall)
  : bool * Z :=
  match calls with
  | [] => (wrote, code)
  | SetHeader _ _ :: rest => recorder_from wrote code rest
  | WriteHeader status :: rest =>
      if wrote then recorder_from wrote code rest
      else recorder_from true status rest
  | Write _ :: rest =>
      if wrote then recorder_from wrote code rest
      else recorder_from true http_StatusOK rest
  end.

Definition recorder_Code (calls : list ResponseCall) : Z :=
  snd (recorder_from false http_StatusOK calls).

(** The bodies written, in order. *)
Definition written_bodies (calls : list ResponseCall) : list Payload :=
  omap (fun c => match c with Write b => Some b | _ => None end) calls.

(** The statuses passed to [WriteHeader], in order. *)
Definition written_statuses (calls : list ResponseCall) : list Z :=
  omap (fun c => match c with WriteHeader s => Some s | _ => None end) calls.

(* ===================================================================== *)
(** ** package core: core/response.go and the error constructors         *)
(* ===================================================================== *)

Module core.

(** [NewAPIError(code, message, detail...)]. *)
Definition NewAPIError (code : Z) (message : string) (detail : list string)
  : APIError :=
  {| Code := code;
     Message := message;
     Detail := match detail with d :: _ => d | [] => "" end;
     Fields := ∅ |}.

(** The JSON of an [APIError] under its struct tags. *)
Definition marshal_APIError (e : APIError) : json :=
  JObject
    ([("code", JNumber (Code e)); ("message", JString (Message e))]
     ++ (if String.eqb (Detail e) "" then []
         else [("detail", JString (Detail e))])
     ++ (if Nat.ltb 0 (size (Fields e)) then [("fields", JStringMap (Fields e))]
         else [])).

(** [JSON(w, status, data)], on the document [doc] that [data] encodes to. *)
Definition JSON (status : Z) (doc : json) (w : World) : World :=
  let w := call_response (SetHeader "Content-Type" "application/json") w in
  let w := call_response (WriteHeader status) w in
  call_response (Write (Encoded doc)) w.

Definition extractRequestContext (r : Request) : list (string * LogValue) :=
  let logFields :=
    [("method", LString (Method r));
     ("path", LString (Path (Url r)));
     ("remote_addr", LString (RemoteAddr r));
     ("user_agent", LString (Header_Get (Header r) "User-Agent"))] in
  let logFields :=
    if String.eqb (RawQuery (Url r)) "" then logFields
    else logFields ++ [("query", LString (RawQuery (Url r)))] in
  let requestID := Header_Get (Header r) "X-Request-ID" in
  if String.eqb requestID "" then logFields
  else logFields ++ [("request_id", LString requestID)].

Definition WriteAPIError (r : Request) (apiErr : APIError) (w : World) : World :=
  let logFields :=
    [("status", LInt (Code apiErr)); ("message", LString (Message apiErr))] in
  let logFields :=
    if String.eqb (Detail apiErr) "" then logFields
    else logFields ++ [("detail", LString (Detail apiErr))] in
  let logFields :=
    if Nat.ltb 0 (size (Fields apiErr)) then
      (logFields
         ++ [("validation_field_count", LInt (Z.of_nat (size (Fields apiErr))))])
        ++ [("validation_fields", LStringMap (Fields apiErr))]
    else logFields in
  let logFields := logFields ++ extractRequestContext r in
  let lvl :=
    if Z.leb 500 (Code apiErr) then LevelError
    else if Z.leb 400 (Code apiErr) then LevelWarn
    else LevelInfo in
  let w := call_log (mkLogCall ToDefault lvl "API error response" logFields) w in
  JSON (Code apiErr) (JObject [("error", marshal_APIError apiErr)]) w.

(** [Error(w, r, status, message)]. *)
Definition Error (r : Request) (status : Z) (message : string) (w : World)
  : World :=
  WriteAPIError r (NewAPIError status message []) w.

(** [JSON(w, status, data)] for data of any type, given how
    [encoding/json] marshals it: the header and the status go out first;
    when marshalling fails, [Encode] returns the error and writes nothing. *)
Definition JSON_of {T} (marshal : T -> json + error) (status : Z) (data : T)
    (w : World) : option error * World :=
  let w := call_response (SetHeader "Content-Type" "application/json") w in
  let w := call_response (WriteHeader status) w in
  match marshal data with
  | inl doc => (None, call_response (Write (Encoded doc)) w)
  | inr err => (Some err, w)
  end.

(** [NewValidationError(message)]. *)
Definition NewValidationError (message : string) : APIError :=
  {| Code := http_StatusBadRequest;
     Message := message;
     Detail := "";
     Fields := ∅ |}.

Definition is_ascii_space (c : ascii) : bool :=
  let n := nat_of_ascii c in
  ((Nat.leb 9 n && Nat.leb n 13) || Nat.eqb n 32)%bool.

(** Whether the three bytes encode a white-space character of three bytes:
    U+1680, U+2000 to U+200A, U+2028, U+2029, U+202F, U+205F, U+3000. *)
Definition is_space3 (a b c : nat) : bool :=
  ((Nat.eqb a 225 && Nat.eqb b 154 && Nat.eqb c 128)
   || (Nat.eqb a 226 && Nat.eqb b 128
       && ((Nat.leb 128 c && Nat.leb c 138)
           || Nat.eqb c 168 || Nat.eqb c 169 || Nat.eqb c 175))
   || (Nat.eqb a 226 && Nat.eqb b 129 && Nat.eqb c 159)
   || (Nat.eqb a 227 && Nat.eqb b 128 && Nat.eqb c 128))%bool.

(** [strings.TrimSpace(s) == ""]: the UTF-8 string is made of white space
    only ([unicode.IsSpace]: tab to carriage return, space, U+0085, U+00A0
    and the three-byte ones); a byte that starts no such character stops
    the trimming. *)
Fixpoint is_blank (s : string) : bool :=
  match s with
  | EmptyString => true
  | String c rest =>
      if is_ascii_space c then is_blank rest
      else
        match rest with
        | String d rest1 =>
            if (Nat.eqb (nat_of_ascii c) 194
                && (Nat.eqb (nat_of_ascii d) 133
                    || Nat.eqb (nat_of_ascii d) 160))%bool
            then is_blank rest1
            else
              match rest1 with
              | String e rest2 =>
                  if is_space3 (nat_of_ascii c) (nat_of_ascii d)
                       (nat_of_ascii e)
                  then is_blank rest2
                  else false
              | EmptyString => false
              end
        | EmptyString => false
        end
  end.

(** [e.AddField(fieldName, fieldError)]: the error with the field added; an
    earlier message for the field that is not blank is kept, joined by
    [" || "]. *)
Definition AddField (e : APIError) (fieldName fieldError : string) : APIError :=
  let value :=
    match Fields e !! fieldName with
    | Some existing =>
        if negb (is_blank existing) then existing +:+ " || " +:+ fieldError
        else fieldError
    | None => fieldError
    end in
  {| Code := Code e;
     Message := Message e;
     Detail := Detail e;
     Fields := <[fieldName := value]> (Fields e) |}.

(** [core.HandlerFunc]: a handler that returns an error. *)
Definition HandlerFunc := Request -> World -> option error * World.

(** [handleError(w, r, err)]. *)
Definition handleError (r : Request) (err : error) (w : World) : World :=
  match as_APIError err with
  | Some apiErr => WriteAPIError r apiErr w
  | None =>
      let w :=
        call_log (mkLogCall ToDefault LevelError "Unexpected error in handler"
                    [("original_error", LString (Error_text err));
                     ("method", LString (Method r));
                     ("path", LString (Path (Url r)))]) w in
      WriteAPIError r
        (NewAPIError http_StatusInternalServerError "Internal Server Error"
           [Error_text err]) w
  end.

(** [h.ServeHTTP(w, r)]. *)
Definition ServeHTTP (h : HandlerFunc) : Request -> World -> World :=
  fun r w =>
    match h r w with
    | (Some err, w) => handleError r err w
    | (None, w) => w
    end.

End core.

(* ===================================================================== *)
(** ** package handler: nullable.go, the handler types, the adapter      *)
(* ===================================================================== *)

(** [uuid.UUID]: sixteen bytes. *)
Definition UUID := list Byte.byte.
#[global] Instance Zero_UUID : Zero UUID := replicate 16 Byte.x00.

(** A [*sql.DB] that is not nil. *)
Definition DB := nat.

(** [http.HandlerFunc]: what it does to the response writer and the logs
    on a request. *)
Definition HandlerFunc := Request -> World -> World.

Module handler.

(** *** nullable.go (the revision whose [Value] panics) *)

Record Nullable (T : Type) := mkNullable {
  value : T;
  hasValue : bool
}.
Arguments mkNullable {T} value hasValue.
Arguments value {T} n.
Arguments hasValue {T} n.

Definition NewNullable {T} (v : T) : Nullable T :=
  {| value := v; hasValue := true |}.

(** [Nullable[T]{hasValue: false}]: the [value] field is left at its zero. *)
Definition Nil {T} `{Zero T} : Nullable T :=
  {| value := zero; hasValue := false |}.

Definition HasValue {T} (n : Nullable T) : bool := hasValue n.

Definition Value {T} (n : Nullable T) : Completion T :=
  if negb (hasValue n) then
    Panics (PanicString
      "japi-core: attempted to access Nullable value when HasValue is false")
  else Returns (value n).

Definition TryValue {T} (n : Nullable T) : T * bool := (value n, hasValue n).

Definition ValueOrDefault {T} `{Zero T} (n : Nullable T) : T :=
  if hasValue n then value n else zero.

Definition ValueOr {T} (n : Nullable T) (defaultValue : T) : T :=
  if hasValue n then value n else defaultValue.

#[global] Instance Zero_Nullable {T} `{Zero T} : Zero (Nullable T) :=
  mkNullable zero false.

(** *** The handler types *)

Record HandlerContext (ParamTypeT BodyTypeT : Type) := mkHandlerContext {
  Context_ : option Context;
  DB_ : option DB;
  Logger_ : option Logger;
  Params : Nullable ParamTypeT;
  Body : Nullable BodyTypeT;
  BodyRaw : Nullable string;
  Headers : Nullable (gmap string (list string));
  UserUUID : Nullable UUID;
  CompanyUUID : Nullable UUID
}.
Arguments mkHandlerContext {ParamTypeT BodyTypeT}.
Arguments Context_ {ParamTypeT BodyTypeT} h.
Arguments DB_ {ParamTypeT BodyTypeT} h.
Arguments Logger_ {ParamTypeT BodyTypeT} h.
Arguments Params {ParamTypeT BodyTypeT} h.
Arguments Body {ParamTypeT BodyTypeT} h.
Arguments BodyRaw {ParamTypeT BodyTypeT} h.
Arguments Headers {ParamTypeT BodyTypeT} h.
Arguments UserUUID {ParamTypeT BodyTypeT} h.
Arguments CompanyUUID {ParamTypeT BodyTypeT} h.

(** [func(ctx, w, r) (ResponseBodyT, error)]: the writer [w] and the
    loggers are in the [World]. *)
Definition Handler (P B R : Type) : Type :=
  HandlerContext P B -> Request -> World -> (R * option error) * World.

(** A middleware value: the function, and the name the runtime reports for
    it ([runtime.FuncForPC(pointer).Name()], [None] when [FuncForPC]
    returns nil). *)
Record Middleware (P B R : Type) := mkMiddleware {
  funcName : option string;
  wrap : Handler P B R -> Handler P B R
}.
Arguments mkMiddleware {P B R}.
Arguments funcName {P B R} m.
Arguments wrap {P B R} m.

Record RouteInfo := mkRouteInfo {
  RMethod : string;
  RPath : string;
  Summary : string;
  Description : string;
  Tags : list string
}.

(** [AdaptableHandler]: its one method, [Adapt(database, logger)]. *)
Definition AdaptableHandler := option DB -> Logger -> HandlerFunc.

Record PendingRoute := mkPendingRoute {
  PMethod : string;
  PPath : string;
  PHandler : AdaptableHandler;
  PRouteInfo : RouteInfo;
  MiddlewareNames : list string
}.

(** *** AdaptHandler (the revision of adapter.go that propagates the
    request context and tells cancellation and timeout apart) *)

(** The [HandlerContext] literal of [AdaptHandler]; the fields it does not
    name are at their zero value. *)
Definition AdaptHandler_context {P B} `{Zero P} `{Zero B}
    (db : option DB) (logger : Logger) (requestCtx : Context)
  : HandlerContext P B :=
  {| Context_ := Some requestCtx;
     DB_ := db;
     Logger_ := Some logger;
     Params := zero;
     Body := zero;
     BodyRaw := zero;
     Headers := zero;
     UserUUID := Nil;
     CompanyUUID := Nil |}.

(** The [logger.Debug] call [AdaptHandler] opens with. *)
Definition creating_context_call (db : option DB) (logger : Logger)
    (r : Request) : LogCall :=
  mkLogCall (ToLogger logger) LevelDebug "AdaptHandler creating context"
    [("db_nil", LBool (bool_decide (db = None)));
     ("path", LString (Path (Url r)))].

Definition AdaptHandler {P B R} `{Zero P} `{Zero B}
    (db : option DB) (logger : Logger) (handler : Handler P B R)
  : HandlerFunc :=
  fun r w =>
    let requestCtx := Request_Context r in
    let w := call_log (creating_context_call db logger r) w in
    let ctx := AdaptHandler_context db logger requestCtx in
    let '((_, err), w) := handler ctx r w in
    match err with
    | Some err =>
        if errors_Is err context_Canceled then
          call_log (mkLogCall (ToLogger logger) LevelInfo
                      "Request cancelled by client"
                      [("path", LString (Path (Url r)))]) w
        else if errors_Is err context_DeadlineExceeded then
          let w :=
            call_log (mkLogCall (ToLogger logger) LevelError
                        "Request timeout"
                        [("path", LString (Path (Url r)))]) w in
          core.WriteAPIError r
            (core.NewAPIError http_StatusGatewayTimeout "Request timeout" []) w
        else
          let w :=
            call_log (mkLogCall (ToLogger logger) LevelError
                        "Handler error"
                        [("error", LString (Error_text err));
                         ("path", LString (Path (Url r)))]) w in
          match as_APIError err with
          | Some apiErr => core.WriteAPIError r apiErr w
          | None =>
              core.Error r http_StatusInternalServerError
                "Internal server error" w
          end
    | None => w
    end.

(** [TypedHandler{handler}.Adapt]. *)
Definition TypedHandler_Adapt {P B R} `{Zero P} `{Zero B}
    (handler : Handler P B R) : AdaptableHandler :=
  fun database logger => AdaptHandler database logger handler.

(** *** getMiddlewareName *)

Definition is_ident_start (c : ascii) : bool :=
  (is_upper c || is_lower c || Ascii.eqb c "_"%char)%bool.

Definition is_digit (c : ascii) : bool :=
  (Nat.leb 48 (nat_of_ascii c) && Nat.leb (nat_of_ascii c) 57)%bool.

Definition is_ident_char (c : ascii) : bool :=
  (is_ident_start c || is_digit c)%bool.

(** The longest prefix of identifier characters, and what follows it. *)
Fixpoint span_ident (s : string) : string * string :=
  match s with
  | EmptyString => (EmptyString, EmptyString)
  | String c rest =>
      if is_ident_char c then
        let '(id, after) := span_ident rest in (String c id, after)
      else (EmptyString, s)
  end.

(** The first submatch of the regular expression of [getMiddlewareName]
    in [s], leftmost match first: a dot, then the captured identifier (a
    letter or underscore, then letters, digits and underscores), then an
    opening bracket.  The bracket is no identifier character, so at each
    dot only the longest identifier can match. *)
Fixpoint find_generic_name (s : string) : option string :=
  match s with
  | EmptyString => None
  | String c rest =>
      if Ascii.eqb c "."%char then
        match rest with
        | String d _ =>
            if is_ident_start d then
              match span_ident rest with
              | (id, String b _) =>
                  if Ascii.eqb b "["%char then Some id
                  else find_generic_name rest
              | _ => find_generic_name rest
              end
            else find_generic_name rest
        | EmptyString => None
        end
      else find_generic_name rest
  end.

Fixpoint contains_char (c : ascii) (s : string) : bool :=
  match s with
  | EmptyString => false
  | String d rest => (Ascii.eqb c d || contains_char c rest)%bool
  end.

(** The last element of [strings.Split(s, ".")]. *)
Fixpoint last_dot_part (s : string) : string :=
  match s with
  | EmptyString => EmptyString
  | String c rest =>
      if contains_char "."%char rest then last_dot_part rest
      else if Ascii.eqb c "."%char then rest
      else s
  end.

(** [s[:strings.Index(s, "[")]] when there is a bracket, [s] otherwise. *)
Fixpoint before_bracket (s : string) : string :=
  match s with
  | EmptyString => EmptyString
  | String c rest =>
      if Ascii.eqb c "["%char then EmptyString
      else String c (before_bracket rest)
  end.

Definition getMiddlewareName {P B R} (middleware : Middleware P B R) : string :=
  match funcName middleware with
  | None => "unknown"
  | Some fullName =>
      match find_generic_name fullName with
      | Some name => name
      | None =>
          let lastName := before_bracket (last_dot_part fullName) in
          if (negb (String.eqb lastName "") && negb (String.eqb lastName "]"))%bool
          then lastName
          else "unknown"
      end
  end.

(** *** The route collection and MakeHandler *)

(** A [sync.RWMutex]: whether a writer holds it, and how many readers. *)
Record RWMutex := mkRWMutex {
  writer : bool;
  readers : nat
}.

(** [Lock]: [None] while it has to wait. *)
Definition Lock (m : RWMutex) : option RWMutex :=
  if (writer m || Nat.ltb 0 (readers m))%bool then None
  else Some {| writer := true; readers := readers m |}.

Definition Unlock (m : RWMutex) : RWMutex :=
  {| writer := false; readers := readers m |}.

(** [RLock]: [None] while a writer holds the mutex. *)
Definition RLock (m : RWMutex) : option RWMutex :=
  if writer m then None
  else Some {| writer := false; readers := S (readers m) |}.

Definition RUnlock (m : RWMutex) : RWMutex :=
  {| writer := writer m; readers := Nat.pred (readers m) |}.

(** The package-level variables [globalRoutes] and [routesMutex]. *)
Record Globals := mkGlobals {
  globalRoutes : list PendingRoute;
  routesMutex : RWMutex
}.

(** The state at program start. *)
Definition initial_Globals : Globals :=
  {| globalRoutes := []; routesMutex := {| writer := false; readers := 0 |} |}.

(** The loop [for i := len(middleware) - 1; i >= 0; i-- { handler =
    middleware[i](handler) }], with [n = i + 1] iterations to go.  The
    index is in range on every iteration, the last branch is never taken. *)
Fixpoint apply_middleware {P B R} (middleware : list (Middleware P B R))
    (n : nat) (handler : Handler P B R) : Handler P B R :=
  match n with
  | O => handler
  | S i =>
      match middleware !! i with
      | Some mw => apply_middleware middleware i (wrap mw handler)
      | None => handler
      end
  end.

(** The handler [MakeHandler] builds and returns. *)
Definition MakeHandler_handler {P B R} (baseHandler : Handler P B R)
    (middleware : list (Middleware P B R)) : Handler P B R :=
  apply_middleware middleware (length middleware) baseHandler.

(** The [PendingRoute] [MakeHandler] appends. *)
Definition MakeHandler_route {P B R} `{Zero P} `{Zero B}
    (routeInfo : RouteInfo) (baseHandler : Handler P B R)
    (middleware : list (Middleware P B R)) : PendingRoute :=
  {| PMethod := RMethod routeInfo;
     PPath := RPath routeInfo;
     PHandler := TypedHandler_Adapt (MakeHandler_handler baseHandler middleware);
     PRouteInfo := routeInfo;
     MiddlewareNames := List.map getMiddlewareName middleware |}.

(** [MakeHandler(routeInfo, baseHandler, middleware...)] run on its own:
    the handler it returns and the globals it leaves; [None] when
    [routesMutex.Lock()] has to wait. *)
Definition MakeHandler {P B R} `{Zero P} `{Zero B}
    (routeInfo : RouteInfo) (baseHandler : Handler P B R)
    (middleware : list (Middleware P B R)) (g : Globals)
  : option (Handler P B R * Globals) :=
  let handler := MakeHandler_handler baseHandler middleware in
  match Lock (routesMutex g) with
  | None => None
  | Some m =>
      let routes :=
        globalRoutes g ++ [MakeHandler_route routeInfo baseHandler middleware] in
      Some (handler, {| globalRoutes := routes; routesMutex := Unlock m |})
  end.

(** [GetCollectedRoutes()]: a copy of the list, [None] when
    [routesMutex.RLock()] has to wait. *)
Definition GetCollectedRoutes (g : Globals) : option (list PendingRoute) :=
  match RLock (routesMutex g) with
  | None => None
  | Some _ => Some (globalRoutes g)
  end.

(** A [chi.Router], as the registrations made on it: verb, path, handler. *)
Definition Router := list (string * string * HandlerFunc).

Definition known_method (method : string) : bool :=
  bool_decide (method ∈ ["GET"; "POST"; "PUT"; "DELETE"; "PATCH"; "HEAD";
                          "OPTIONS"]).

(** [registerRoute]: the switch has no default, other verbs register
    nothing. *)
Definition registerRoute (r : Router) (method path : string)
    (handler : HandlerFunc) : Router :=
  if known_method method then r ++ [(method, path, handler)] else r.

Definition RegisterCollectedRoutes (r : Router) (database : option DB)
    (logger : Logger) (g : Globals) : option Router :=
  match RLock (routesMutex g) with
  | None => None
  | Some _ =>
      Some (foldl (fun r route =>
                     registerRoute r (PMethod route) (PPath route)
                       (PHandler route database logger))
                  r (globalRoutes g))
  end.

End handler.

(* ===================================================================== *)
(** ** package db: query.go (WithTx) and the connection set-up (Connect)  *)
(* ===================================================================== *)

(** What [database/sql] offers to [WithTx], over a database state [S] and
    transaction handles [Tx]: [db.Begin()], [tx.Commit()], [tx.Rollback()].
    Each returns its error ([None] for nil) and the state it leaves. *)
Class SqlTx (S Tx : Type) := {
  db_Begin : S -> (Tx + error) * S;
  tx_Commit : Tx -> S -> option error * S;
  tx_Rollback : Tx -> S -> option error * S
}.

Module db.

(** [WithTx(db, fn)].  The callback runs on the state [Begin] left; it
    returns its pair, or panics, and leaves a state either way.  The
    deferred function recovers a panic, calls [tx.Rollback()] (dropping its
    result) and panics again with the recovered value. *)
Definition WithTx {S Tx T} `{SqlTx S Tx} `{Zero T}
    (fn : Tx -> S -> Completion (T * option error) * S) (s : S)
  : Completion (T * option error) * S :=
  match db_Begin s with
  | (inr err, s) =>
      (Returns (zero,
                Some (ErrWrap ("failed to begin transaction: " +:+ Error_text err)
                              err)), s)
  | (inl tx, s) =>
      match fn tx s with
      | (Panics p, s) =>
          let '(_, s) := tx_Rollback tx s in
          (Panics p, s)
      | (Returns (result, Some err), s) =>
          match tx_Rollback tx s with
          | (Some rbErr, s) =>
              (Returns (zero,
                        Some (ErrText ("transaction failed: " +:+ Error_text err
                                       +:+ ", rollback failed: "
                                       +:+ Error_text rbErr))), s)
          | (None, s) => (Returns (zero, Some err), s)
          end
      | (Returns (result, None), s) =>
          match tx_Commit tx s with
          | (Some err, s) =>
              (Returns (zero,
                        Some (ErrWrap ("failed to commit transaction: "
                                       +:+ Error_text err) err)), s)
          | (None, s) => (Returns (result, None), s)
          end
      end
  end.

(** [Config]. *)
Record Config := mkConfig {
  Host : string;
  Port : Z;
  User : string;
  Password : string;
  Database : string;
  SSLMode : string;
  MaxOpenConns : Z;
  MaxIdleConns : Z;
  MaxLifetime : Z;
  MaxIdleTime : Z
}.

Definition time_Minute : Z := 60 * 1000000000.

(** A call [Connect] makes on [database/sql]. *)
Inductive SqlCall :=
| sql_Open (driverName dataSourceName : string)
| SetMaxOpenConns (n : Z)
| SetMaxIdleConns (n : Z)
| SetConnMaxLifetime (d : Z)
| SetConnMaxIdleTime (d : Z)
| Ping
| Close.

(** How the database side answers: the error of [sql.Open], the handle it
    returns otherwise, and the error of [db.Ping()]. *)
Record Server := mkServer {
  open_error : option error;
  opened : DB;
  ping_error : option error
}.

(** The four defaults [Connect] applies to fields left at zero. *)
Definition with_defaults (config : Config) : Config :=
  {| Host := Host config;
     Port := Port config;
     User := User config;
     Password := Password config;
     Database := Database config;
     SSLMode := SSLMode config;
     MaxOpenConns :=
       if Z.eqb (MaxOpenConns config) 0 then 25 else MaxOpenConns config;
     MaxIdleConns :=
       if Z.eqb (MaxIdleConns config) 0 then 25 else MaxIdleConns config;
     MaxLifetime :=
       if Z.eqb (MaxLifetime config) 0 then 5 * time_Minute
       else MaxLifetime config;
     MaxIdleTime :=
       if Z.eqb (MaxIdleTime config) 0 then 5 * time_Minute
       else MaxIdleTime config |}.

(** [Connect(config)]: the handle or the error, and the calls made on
    [database/sql], in order. *)
Definition Connect (config : Config) (server : Server)
  : (DB + error) * list SqlCall :=
  let dsn :=
    "host=" +:+ Host config +:+ " port=" +:+ fmt_d (Port config)
    +:+ " user=" +:+ User config +:+ " password=" +:+ Password config
    +:+ " dbname=" +:+ Database config +:+ " sslmode=" +:+ SSLMode config in
  let config := with_defaults config in
  if Z.ltb (MaxOpenConns config) (MaxIdleConns config) then
    (inr (ErrText ("MaxIdleConns (" +:+ fmt_d (MaxIdleConns config)
                   +:+ ") cannot exceed MaxOpenConns ("
                   +:+ fmt_d (MaxOpenConns config) +:+ ")")), [])
  else
    let calls := [sql_Open "pgx" dsn] in
    match open_error server with
    | Some err =>
        (inr (ErrWrap ("failed to open database: " +:+ Error_text err) err),
         calls)
    | None =>
        let calls :=
          calls ++ [SetMaxOpenConns (MaxOpenConns config);
                    SetMaxIdleConns (MaxIdleConns config);
                    SetConnMaxLifetime (MaxLifetime config);
                    SetConnMaxIdleTime (MaxIdleTime config);
                    Ping] in
        match ping_error server with
        | Some err =>
            (inr (ErrWrap ("failed to ping database: " +:+ Error_text err) err),
             calls ++ [Close])
        | None => (inl (opened server), calls)
        end
    end.

End db.

(** An in-memory database behind [SqlTx], to run [WithTx] on: the
    statements committed so far, the statements of the open transaction,
    the calls received, and the errors the driver is set to answer. *)
Inductive TxCall := CallBegin | CallExec (stmt : string) | CallCommit | CallRollback.

Record MemDB := mkMemDB {
  committed : list string;
  pending : option (list string);
  received : list TxCall;
  begin_fault : option error;
  commit_fault : option error;
  rollback_fault : option error
}.

Definition sql_ErrTxDone : error :=
  ErrText "sql: transaction has already been committed or rolled back".

Definition MemDB_Begin (s : MemDB) : (unit + error) * MemDB :=
  match begin_fault s with
  | Some err =>
      (inr err,
       mkMemDB (committed s) (pending s) (received s ++ [CallBegin])
               (begin_fault s) (commit_fault s) (rollback_fault s))
  | None =>
      (inl tt,
       mkMemDB (committed s) (Some []) (received s ++ [CallBegin])
               (begin_fault s) (commit_fault s) (rollback_fault s))
  end.

Definition MemDB_Exec (stmt : string) (s : MemDB) : option error * MemDB :=
  match pending s with
  | Some p =>
      (None,
       mkMemDB (committed s) (Some (p ++ [stmt])) (received s ++ [CallExec stmt])
               (begin_fault s) (commit_fault s) (rollback_fault s))
  | None =>
      (Some sql_ErrTxDone,
       mkMemDB (committed s) None (received s ++ [CallExec stmt])
               (begin_fault s) (commit_fault s) (rollback_fault s))
  end.

Definition MemDB_Commit (tx : unit) (s : MemDB) : option error * MemDB :=
  match pending s with
  | Some p =>
      match commit_fault s with
      | Some err =>
          (Some err,
           mkMemDB (committed s) None (received s ++ [CallCommit])
                   (begin_fault s) (commit_fault s) (rollback_fault s))
      | None =>
          (None,
           mkMemDB (committed s ++ p) None (received s ++ [CallCommit])
                   (begin_fault s) (commit_fault s) (rollback_fault s))
      end
  | None =>
      (Some sql_ErrTxDone,
       mkMemDB (committed s) None (received s ++ [CallCommit])
               (begin_fault s) (commit_fault s) (rollback_fault s))
  end.

Definition MemDB_Rollback (tx : unit) (s : MemDB) : option error * MemDB :=
  match pending s with
  | Some p =>
      (rollback_fault s,
       mkMemDB (committed s) None (received s ++ [CallRollback])
               (begin_fault s) (commit_fault s) (rollback_fault s))
  | None =>
      (Some sql_ErrTxDone,
       mkMemDB (committed s) None (received s ++ [CallRollback])
               (begin_fault s) (commit_fault s) (rollback_fault s))
  end.

#[global] Instance SqlTx_MemDB : SqlTx MemDB unit := {
  db_Begin := MemDB_Begin;
  tx_Commit := MemDB_Commit;
  tx_Rollback := MemDB_Rollback
}.


Definition exec_then_fail (tx : unit) (s : MemDB)
  : Completion (Z * option error) * MemDB :=
  (Returns (1, Some (ErrText "boom")), snd (MemDB_Exec "INSERT 1" s)).

Definition fresh_MemDB (rollback_fault : option error) : MemDB :=
  mkMemDB [] None [] None None rollback_fault.

(* ===================================================================== *)
(** ** Goroutines registering routes at the same time                     *)
(* ===================================================================== *)

(** The part of [MakeHandler] that touches the package variables is
    [routesMutex.Lock(); globalRoutes = append(globalRoutes, route);
    routesMutex.Unlock()].  A goroutine inside a [MakeHandler] call is at
    one of five places; the append is a read of [globalRoutes] followed by
    a write, so another goroutine may run between the two.  The goroutines
    run under an interleaving of these steps. *)
Module goroutines.

Import handler.

Inductive Place :=
| AtLock
| AtLoad
| AtStore (old : list PendingRoute)
| AtUnlock
| AtReturn.

Record Goroutine := mkGoroutine {
  registering : PendingRoute;
  place : Place
}.

(** One step of a goroutine; [None] when it waits for the mutex or has
    returned. *)
Definition step (t : Goroutine) (g : Globals) : option (Goroutine * Globals) :=
  match place t with
  | AtLock =>
      match Lock (routesMutex g) with
      | Some m =>
          Some (mkGoroutine (registering t) AtLoad,
                mkGlobals (globalRoutes g) m)
      | None => None
      end
  | AtLoad =>
      Some (mkGoroutine (registering t) (AtStore (globalRoutes g)), g)
  | AtStore old =>
      Some (mkGoroutine (registering t) AtUnlock,
            mkGlobals (old ++ [registering t]) (routesMutex g))
  | AtUnlock =>
      Some (mkGoroutine (registering t) AtReturn,
            mkGlobals (globalRoutes g) (Unlock (routesMutex g)))
  | AtReturn => None
  end.

(** The process: the package variables and the goroutines. *)
Record Process := mkProcess {
  globals : Globals;
  threads : list Goroutine
}.


(** The scheduler lets goroutine [i] take its next step. *)
Definition schedule1 (i : nat) (p : Process) : option Process :=
  match threads p !! i with
  | Some t =>
      match step t (globals p) with
      | Some (t', g') => Some (mkProcess g' (<[i := t']> (threads p)))
      | None => None
      end
  | None => None
  end.

(** A schedule: the goroutine chosen at each step. *)
Fixpoint run (schedule : list nat) (p : Process) : option Process :=
  match schedule with
  | [] => Some p
  | i :: rest =>
      match schedule1 i p with
      | Some p' => run rest p'
      | None => None
      end
  end.









End goroutines.

(* ===================================================================== *)
(** ** Registries                                                         *)
(* ===================================================================== *)

(** Modelled from the spec: the [Registry] type with [NewRegistry],
    [GetRoutes] and the [MakeHandler] that takes a registry are not among
    the sources (only their tests and callers are).  Following sections
    3 and 4.3 of the specification: a registry is an ordered list of route
    definitions with its own mutual-exclusion guard; [new()] gives an empty
    registry, independent of all others; the composition call appends one
    route definition to the registry it is given; [getRoutes()] returns a
    copy of the current list.  A registry is a pointer into the heap of
    the process. *)
Module registry.

Import handler.

(** Modelled from the spec: a registry has an ordered list of route
    definitions and a mutual-exclusion guard. *)
Record Registry := mkRegistry {
  routes : list PendingRoute;
  mu : RWMutex
}.

(** Modelled from the spec: [NewRegistry()], the [new()] of section 4.3,
    gives an empty registry, independent of all others: it sits at an
    address not in use. *)
Definition NewRegistry (h : gmap nat Registry) : nat * gmap nat Registry :=
  let reg := fresh (dom h) in
  (reg, <[reg := mkRegistry [] (mkRWMutex false 0)]> h).

(** Modelled from the spec: [register] appends a route definition under
    the registry's lock; [None] when the pointer is dangling or the lock
    has to wait. *)
Definition register (reg : nat) (route : PendingRoute) (h : gmap nat Registry)
  : option (gmap nat Registry) :=
  match h !! reg with
  | Some r =>
      match Lock (mu r) with
      | Some m => Some (<[reg := mkRegistry (routes r ++ [route]) (Unlock m)]> h)
      | None => None
      end
  | None => None
  end.

(** Modelled from the spec: [reg.GetRoutes()] returns a copy of the
    current list, under the read lock. *)
Definition GetRoutes (reg : nat) (h : gmap nat Registry)
  : option (list PendingRoute) :=
  match h !! reg with
  | Some r =>
      match RLock (mu r) with
      | Some _ => Some (routes r)
      | None => None
      end
  | None => None
  end.

(** Modelled from the spec: [MakeHandler(reg, routeInfo, baseHandler,
    middleware...)], composition and registration in one operation: the
    handler and the route definition are built as the composer of the
    sources builds them, the route is registered in [reg], the handler is
    returned. *)
Definition MakeHandler {P B R} `{Zero P} `{Zero B} (reg : nat)
    (routeInfo : RouteInfo) (baseHandler : Handler P B R)
    (middleware : list (Middleware P B R)) (h : gmap nat Registry)
  : option (Handler P B R * gmap nat Registry) :=
  match register reg (MakeHandler_route routeInfo baseHandler middleware) h with
  | Some h' => Some (MakeHandler_handler baseHandler middleware, h')
  | None => None
  end.

End registry.

(* ===================================================================== *)
(** ** Handlers and middleware that leave marks                           *)
(* ===================================================================== *)

(** To observe the order in which a composed handler runs its parts: a
    middleware that logs [name-pre] before it calls [next] and [name-post]
    after, and a base handler that logs its name. *)
Module marks.

Import handler.

Definition mark (s : string) (w : World) : World :=
  call_log (mkLogCall ToDefault LevelInfo s []) w.

Definition marking_middleware {P B R} (name : string) : Middleware P B R :=
  {| funcName := Some ("main." +:+ name);
     wrap := fun next ctx r w =>
               let w := mark (name +:+ "-pre") w in
               let '(res, w) := next ctx r w in
               (res, mark (name +:+ "-post") w) |}.

Definition marking_handler {P B R} (name : string) (result : R)
  : Handler P B R :=
  fun ctx r w => ((result, None), mark name w).

(** A handler that makes no call and returns [err]. *)
Definition failing_handler {P B R} `{Zero R} (err : error) : Handler P B R :=
  fun ctx r w => ((zero, Some err), w).

Definition marks_of (w : World) : list string := List.map msg (logs w).

Definition empty_World : World := mkWorld [] [].

(** A route for [GET path] whose adapted handler does nothing. *)
Definition test_route (path : string) : PendingRoute :=
  {| PMethod := "GET";
     PPath := path;
     PHandler := fun _ _ _ w => w;
     PRouteInfo := mkRouteInfo "GET" path "" "" [];
     MiddlewareNames := [] |}.

Definition GET_test : Request :=
  mkRequest "GET" (mkURL "/test" "") "192.0.2.1:1234" ∅ None.

End marks.

(* ===================================================================== *)
(** ** More of the packages: earlier and later revisions, the typed and
       the HTTP middleware, the router glue, the documentation helpers     *)
(* ===================================================================== *)

(** The status, if any, that the adapter answers an outcome with. *)
Definition adapter_status (err : option error) : list Z :=
  match err with
  | None => []
  | Some e =>
      if errors_Is e context_Canceled then []
      else if errors_Is e context_DeadlineExceeded then [504]
      else match as_APIError e with
           | Some apiErr => [Code apiErr]
           | None => [500]
           end
  end.

(** The earlier revision of adapter.go, from before the request context
    was propagated: the context literal names the database, the logger and
    the two identities only, and every error takes the same path. *)
Module handler_early.

Import handler.

Definition AdaptHandler_context {P B} `{Zero P} `{Zero B}
    (db : option DB) (logger : Logger) : HandlerContext P B :=
  {| Context_ := zero;
     DB_ := db;
     Logger_ := Some logger;
     Params := zero;
     Body := zero;
     BodyRaw := zero;
     Headers := zero;
     UserUUID := Nil;
     CompanyUUID := Nil |}.

Definition AdaptHandler {P B R} `{Zero P} `{Zero B}
    (db : option DB) (logger : Logger) (handler : Handler P B R)
  : HandlerFunc :=
  fun r w =>
    let w := call_log (creating_context_call db logger r) w in
    let ctx := AdaptHandler_context db logger in
    let '((_, err), w) := handler ctx r w in
    match err with
    | Some err =>
        let w :=
          call_log (mkLogCall (ToLogger logger) LevelError "Handler error"
                      [("error", LString (Error_text err));
                       ("path", LString (Path (Url r)))]) w in
        match as_APIError err with
        | Some apiErr => core.WriteAPIError r apiErr w
        | None =>
            core.Error r http_StatusInternalServerError
              "Internal server error" w
        end
    | None => w
    end.

End handler_early.

(** The later revision of nullable.go, whose [Value] returns an error
    instead of panicking. *)
Module handler_late.

Import handler.

Definition Value {T} `{Zero T} (n : Nullable T) : T * option error :=
  if negb (hasValue n) then
    (zero,
     Some (ErrAPI (core.NewAPIError http_StatusInternalServerError
                     "nullable value is not present" [])))
  else (value n, None).

End handler_late.

(** [MakeHandler] called once per entry of a list, one call after the
    other, as package initialisation does. *)
Fixpoint MakeHandler_each {P B R} `{Zero P} `{Zero B}
    (calls : list (handler.RouteInfo * handler.Handler P B R
                   * list (handler.Middleware P B R)))
    (g : handler.Globals) : option handler.Globals :=
  match calls with
  | [] => Some g
  | (routeInfo, baseHandler, middleware) :: rest =>
      match handler.MakeHandler routeInfo baseHandler middleware g with
      | Some (_, g') => MakeHandler_each rest g'
      | None => None
      end
  end.

(** What [RegisterCollectedRoutes] hands to the router for a route: the
    verb, the path, and the handler adapted with the dependencies. *)
Definition bound (database : option DB) (logger : Logger)
    (route : handler.PendingRoute) : string * string * HandlerFunc :=
  (handler.PMethod route, handler.PPath route,
   handler.PHandler route database logger).

(** Identifiers, as the regular expression of [getMiddlewareName] captures
    them: a letter or underscore, then letters, digits and underscores. *)
Fixpoint all_ident_chars (s : string) : bool :=
  match s with
  | EmptyString => true
  | String c rest => (handler.is_ident_char c && all_ident_chars rest)%bool
  end.

Definition is_identifier (s : string) : bool :=
  match s with
  | EmptyString => false
  | String c rest => (handler.is_ident_start c && all_ident_chars rest)%bool
  end.

(** package typed: the response-writing and the authentication middleware. *)
Module typed.

Import handler.

(** A call of a leveled method on [ctx.Logger].  On a nil logger the Go
    call panics, which a [Handler] has no place for: what is proved about
    paths that log is proved for contexts that carry a logger, as the
    adapter builds them. *)
Definition ctx_log {P B} (ctx : HandlerContext P B) (lvl : Level)
    (message : string) (attrs : list (string * LogValue)) (w : World) : World :=
  match Logger_ ctx with
  | Some l => call_log (mkLogCall (ToLogger l) lvl message attrs) w
  | None => w
  end.

(** [ResponseJSON(next)], given how [encoding/json] marshals the response
    type. *)
Definition ResponseJSON {P B R} (marshal : R -> json + error)
    (next : Handler P B R) : Handler P B R :=
  fun ctx r w =>
    let '((responseData, err), w) := next ctx r w in
    match err with
    | Some err => ((responseData, Some err), w)
    | None =>
        let statusCode := if String.eqb (Method r) "POST" then 201 else 200 in
        match core.JSON_of marshal statusCode responseData w with
        | (Some err, w) =>
            let w :=
              ctx_log ctx LevelError "Failed to write JSON response"
                [("error", LString (Error_text err));
                 ("path", LString (Path (Url r)))] w in
            ((responseData,
              Some (ErrAPI (core.NewAPIError http_StatusInternalServerError
                              "Failed to write response" []))), w)
        | (None, w) => ((responseData, None), w)
        end
    end.

(** The claims of a validated token, as far as [RequireAuth] reads them. *)
Record Claims := mkClaims {
  ClaimsUserUUID : UUID;
  ClaimsCompanyUUID : UUID
}.

(** [strings.TrimPrefix(s, prefix)] when [s] has the prefix: [s] without
    its first [n] bytes. *)
Fixpoint drop_bytes (n : nat) (s : string) : string :=
  match n, s with
  | O, _ => s
  | Datatypes.S n', String _ rest => drop_bytes n' rest
  | Datatypes.S _, EmptyString => EmptyString
  end.

Definition http_StatusUnauthorized : Z := 401.

(** [RequireAuth(jwtSecret, validateUserCompany, next)].  [ValidateToken]
    is [jwt.ValidateToken]; [validateUserCompany] is the caller's check,
    which gets [ctx.DB] and the two identities. *)
Definition RequireAuth {P B R} `{Zero R}
    (ValidateToken : string -> string -> Claims + error)
    (jwtSecret : string)
    (validateUserCompany :
       option DB -> UUID -> UUID -> World -> option error * World)
    (next : Handler P B R) : Handler P B R :=
  fun ctx r w =>
    let authHeader := Header_Get (Header r) "Authorization" in
    if String.eqb authHeader "" then
      ((zero, Some (ErrAPI (core.NewAPIError http_StatusUnauthorized
                              "Authorization header required" []))), w)
    else if negb (String.prefix "Bearer " authHeader) then
      ((zero, Some (ErrAPI (core.NewAPIError http_StatusUnauthorized
                              "Authorization header must start with 'Bearer '"
                              []))), w)
    else
      let token := drop_bytes 7 authHeader in
      if String.eqb token "" then
        ((zero, Some (ErrAPI (core.NewAPIError http_StatusUnauthorized
                                "Bearer token is required" []))), w)
      else if String.eqb jwtSecret "" then
        let w := ctx_log ctx LevelError "JWT secret not configured" [] w in
        ((zero, Some (ErrAPI (core.NewAPIError http_StatusInternalServerError
                                "Authentication configuration error" []))), w)
      else
        match ValidateToken token jwtSecret with
        | inr err =>
            let w :=
              ctx_log ctx LevelWarn "Invalid JWT token"
                [("error", LString (Error_text err))] w in
            ((zero, Some (ErrAPI (core.NewAPIError http_StatusUnauthorized
                                    "Invalid or expired token" []))), w)
        | inl claims =>
            match validateUserCompany (DB_ ctx) (ClaimsUserUUID claims)
                    (ClaimsCompanyUUID claims) w with
            | (Some err, w) => ((zero, Some err), w)
            | (None, w) =>
                let ctx :=
                  {| Context_ := Context_ ctx;
                     DB_ := DB_ ctx;
                     Logger_ := Logger_ ctx;
                     Params := Params ctx;
                     Body := Body ctx;
                     BodyRaw := BodyRaw ctx;
                     Headers := Headers ctx;
                     UserUUID := NewNullable (ClaimsUserUUID claims);
                     CompanyUUID := NewNullable (ClaimsCompanyUUID claims) |} in
                next ctx r w
            end
        end.

End typed.

(** package middleware/http: request identifiers. *)
Module httpmw.

Definition RequestIDHeader : string := "X-Request-ID".
Definition RequestIDContextKey : string := "request_id".

(** [WithRequestID()(next)]; [generated] is what [uuid.New().String()]
    gives when it is called. *)
Definition WithRequestID (generated : string) (next : HandlerFunc)
  : HandlerFunc :=
  fun r w =>
    let requestID := Header_Get (Header r) RequestIDHeader in
    let requestID := if String.eqb requestID "" then generated else requestID in
    let w := call_response (SetHeader RequestIDHeader requestID) w in
    let ctx :=
      context_WithValue (Request_Context r) RequestIDContextKey requestID in
    next (Request_WithContext r ctx) w.

(** [GetRequestID(r)]. *)
Definition GetRequestID (r : Request) : string :=
  match Context_Value (Request_Context r) RequestIDContextKey with
  | Some requestID => requestID
  | None => ""
  end.

End httpmw.

(** package router: the adapter of error-returning handlers. *)
Module router.


End router.

(** package swagger: what the documentation reads off a route. *)
Module swagger.

(** [requiresAuth(route)]. *)
Definition requiresAuth (route : handler.PendingRoute) : bool :=
  existsb (fun middlewareName => String.eqb middlewareName "RequireAuth")
    (handler.MiddlewareNames route).

End swagger.

(* ===================================================================== *)
(** * Properties                                                          *)
(* ===================================================================== *)

(** ** Optional values *)

(** C9. For every type [T], value [v] and fallback [d]: [NewNullable v] has
    [HasValue = true] and [ValueOrDefault = v]; [Nil] has
    [HasValue = false], [ValueOrDefault] the zero value of [T] and
    [ValueOr d = d].  The accessors are total functions of the optional
    alone: they return on every input and touch no state. *)
Theorem Nullable_accessors (T : Type) `{Zero T} (v d : T) :
  handler.HasValue (handler.NewNullable v) = true /\
  handler.ValueOrDefault (handler.NewNullable v) = v /\
  handler.HasValue (@handler.Nil T _) = false /\
  handler.ValueOrDefault (@handler.Nil T _) = zero /\
  handler.ValueOr (@handler.Nil T _) d = d.
Proof. repeat split. Qed.

(** C10. [Value] on [Nil] panics with the fixed message (a panic value, which
    a deferred [recover] can catch: neither a process exit nor an error
    return); [Value] on [NewNullable v] returns [v] and does not panic. *)
Theorem Value_fail_fast (T : Type) `{Zero T} (v : T) :
  handler.Value (@handler.Nil T _) =
    Panics (PanicString
      "japi-core: attempted to access Nullable value when HasValue is false") /\
  handler.Value (handler.NewNullable v) = Returns v.
Proof. split; reflexivity. Qed.

(** ** The composer *)

Section composer.
Context {P B R : Type}.
Import handler.

(** The loop of [MakeHandler], seen from the list: with [n] iterations to
    go it wraps [handler] in the first [n] middleware, the first of them
    outermost. *)
Lemma apply_middleware_take (middleware : list (Middleware P B R)) (n : nat)
    (h : Handler P B R) :
  (n <= length middleware)%nat ->
  apply_middleware middleware n h = foldr wrap h (take n middleware).
Proof.
  revert h. induction n as [|i IH]; intros h Hn; simpl.
  - reflexivity.
  - destruct (lookup_lt_is_Some_2 middleware i) as [mw Hmw]; [lia|].
    rewrite Hmw, IH by lia.
    rewrite (take_S_r _ _ _ Hmw), foldr_app. reflexivity.
Qed.

Lemma MakeHandler_handler_foldr (baseHandler : Handler P B R)
    (middleware : list (Middleware P B R)) :
  MakeHandler_handler baseHandler middleware = foldr wrap baseHandler middleware.
Proof.
  unfold MakeHandler_handler.
  rewrite apply_middleware_take by lia. rewrite firstn_all. reflexivity.
Qed.

(** Marking middleware around a marking handler: the marks come out in
    list order before the handler and in reverse list order after it. *)
Lemma marking_chain_marks (names : list string) (base : string) (result : R)
    (ctx : HandlerContext P B) (r : Request) (w : World) :
  marks.marks_of
    (snd (foldr wrap (marks.marking_handler base result)
            (List.map marks.marking_middleware names) ctx r w)) =
  marks.marks_of w
    ++ List.map (fun n => n +:+ "-pre") names
    ++ [base]
    ++ List.map (fun n => n +:+ "-post") (rev names).
Proof.
  revert w. induction names as [|n names IH]; intros w; simpl.
  - unfold marks.marks_of. simpl. rewrite map_app. reflexivity.
  - destruct (foldr wrap (marks.marking_handler base result)
                (List.map marks.marking_middleware names) ctx r
                (marks.mark (n +:+ "-pre") w)) as [res w'] eqn:E.
    specialize (IH (marks.mark (n +:+ "-pre") w)). rewrite E in IH.
    simpl in IH. unfold marks.marks_of in *. simpl in *.
    rewrite !map_app in *. simpl in *. rewrite IH.
    rewrite <- !app_assoc. simpl. reflexivity.
Qed.

End composer.

(** C1. [MakeHandler] with the middleware list [A; B] around [H], from the
    state at program start: the call returns a handler, and running it
    leaves the marks A-pre, B-pre, H, B-post, A-post; the first middleware
    of the list is the outermost wrapper.  The order B-pre, A-pre, H,
    A-post, B-post is not what happens. *)
Theorem MakeHandler_A_B_runs_A_outermost :
  exists (h : handler.Handler unit unit Z) (g : handler.Globals),
    handler.MakeHandler (handler.mkRouteInfo "GET" "/test" "" "" [])
      (marks.marking_handler "H" 7)
      [marks.marking_middleware "A"; marks.marking_middleware "B"]
      handler.initial_Globals = Some (h, g) /\
    marks.marks_of
      (snd (h (handler.AdaptHandler_context None 0%nat context_Background)
              marks.GET_test marks.empty_World)) =
      ["A-pre"; "B-pre"; "H"; "B-post"; "A-post"] /\
    marks.marks_of
      (snd (h (handler.AdaptHandler_context None 0%nat context_Background)
              marks.GET_test marks.empty_World)) <>
      ["B-pre"; "A-pre"; "H"; "A-post"; "B-post"].
Proof.
  eexists _, _. split; [reflexivity|]. split; [reflexivity|]. discriminate.
Qed.

(** For every base handler and middleware list, from a state in which the
    mutex is free: [MakeHandler] returns the base handler wrapped by the
    middleware with the first of the list outermost, and appends one route. *)
Lemma MakeHandler_returns_foldr {P B R} `{Zero P} `{Zero B}
    (routeInfo : handler.RouteInfo) (baseHandler : handler.Handler P B R)
    (middleware : list (handler.Middleware P B R)) (g : handler.Globals) :
  handler.routesMutex g = handler.mkRWMutex false 0 ->
  handler.MakeHandler routeInfo baseHandler middleware g =
    Some (foldr handler.wrap baseHandler middleware,
          handler.mkGlobals
            (handler.globalRoutes g
               ++ [handler.MakeHandler_route routeInfo baseHandler middleware])
            (handler.mkRWMutex false 0)).
Proof.
  intros Hm. unfold handler.MakeHandler. rewrite Hm. simpl.
  rewrite MakeHandler_handler_foldr. reflexivity.
Qed.

(** For every list of marking middleware: the handler [MakeHandler]
    returns runs their first halves in list order, then the base handler,
    then their second halves in reverse list order. *)
Lemma MakeHandler_marks_order {P B R} `{Zero P} `{Zero B}
    (routeInfo : handler.RouteInfo) (names : list string) (base : string)
    (result : R) (hctx : handler.HandlerContext P B) (r : Request) (w : World) :
  exists h g,
    handler.MakeHandler routeInfo (marks.marking_handler base result)
      (List.map marks.marking_middleware names) handler.initial_Globals
      = Some (h, g) /\
    marks.marks_of (snd (h hctx r w)) =
      marks.marks_of w
      ++ List.map (fun n => n +:+ "-pre") names
      ++ [base]
      ++ List.map (fun n => n +:+ "-post") (rev names).
Proof.
  eexists _, _. split.
  - apply MakeHandler_returns_foldr. reflexivity.
  - apply marking_chain_marks.
Qed.

(** ** The adapter *)

Section adapter.
Context {P B R : Type} `{Zero P} `{Zero B}.
Import handler.

(** [AdaptHandler] in terms of the one handler call it makes. *)
Lemma AdaptHandler_unfold (db : option DB) (logger : Logger)
    (h : Handler P B R) (r : Request) (w : World) :
  AdaptHandler db logger h r w =
  match h (AdaptHandler_context db logger (Request_Context r)) r
          (call_log (creating_context_call db logger r) w) with
  | ((_, Some err), w') =>
      if errors_Is err context_Canceled then
        call_log (mkLogCall (ToLogger logger) LevelInfo
                    "Request cancelled by client"
                    [("path", LString (Path (Url r)))]) w'
      else if errors_Is err context_DeadlineExceeded then
        core.WriteAPIError r
          (core.NewAPIError http_StatusGatewayTimeout "Request timeout" [])
          (call_log (mkLogCall (ToLogger logger) LevelError "Request timeout"
                       [("path", LString (Path (Url r)))]) w')
      else
        match as_APIError err with
        | Some apiErr =>
            core.WriteAPIError r apiErr
              (call_log (mkLogCall (ToLogger logger) LevelError "Handler error"
                           [("error", LString (Error_text err));
                            ("path", LString (Path (Url r)))]) w')
        | None =>
            core.Error r http_StatusInternalServerError "Internal server error"
              (call_log (mkLogCall (ToLogger logger) LevelError "Handler error"
                           [("error", LString (Error_text err));
                            ("path", LString (Path (Url r)))]) w')
        end
  | ((_, None), w') => w'
  end.
Proof.
  unfold AdaptHandler.
  destruct (h _ r _) as [[res [err|]] w']; reflexivity.
Qed.

(** [WriteAPIError] only appends: three calls on the writer, one log call. *)
Lemma WriteAPIError_appends (r : Request) (e : APIError) (w : World) :
  response (core.WriteAPIError r e w) =
    response w ++ [SetHeader "Content-Type" "application/json";
                   WriteHeader (Code e);
                   Write (Encoded (JObject [("error", core.marshal_APIError e)]))]
  /\ exists c, logs (core.WriteAPIError r e w) = logs w ++ [c]
               /\ sink c = ToDefault.
Proof.
  unfold core.WriteAPIError, core.JSON, call_response, call_log. simpl.
  split.
  - rewrite <- !app_assoc. reflexivity.
  - eexists. split; reflexivity.
Qed.

End adapter.

(** C3. For every request, the context the adapter builds has its
    [Context] field set to the request's context ([r.Context()], which is
    the background context when the request carries none), so it is never
    nil; whatever a handler does with the [Context] field of its argument,
    it does with the request's context; and the adapter calls the handler
    on exactly this context: what the handler did on it is a prefix of what
    the adapter leaves. *)
Theorem AdaptHandler_passes_request_context (P B R : Type) `{Zero P} `{Zero B}
    (db : option DB) (logger : Logger) (h : handler.Handler P B R)
    (r : Request) (w : World) :
  let hctx : handler.HandlerContext P B :=
    handler.AdaptHandler_context db logger (Request_Context r) in
  let after_handler :=
    snd (h hctx r (call_log (handler.creating_context_call db logger r) w)) in
  handler.Context_ hctx = Some (Request_Context r) /\
  handler.Context_ hctx <> None /\
  handler.Context_ hctx =
    Some (match ctx r with Some c => c | None => context_Background end) /\
  (forall k : option Context -> handler.Handler P B R,
     handler.AdaptHandler db logger (fun c => k (handler.Context_ c) c) r w =
     handler.AdaptHandler db logger (fun c => k (Some (Request_Context r)) c)
       r w) /\
  exists calls entries,
    response (handler.AdaptHandler db logger h r w) =
      response after_handler ++ calls /\
    logs (handler.AdaptHandler db logger h r w) = logs after_handler ++ entries.
Proof.
  intros hctx after_handler. subst hctx after_handler.
  split; [reflexivity|]. split; [discriminate|].
  split; [reflexivity|]. split; [reflexivity|].
  rewrite AdaptHandler_unfold.
  destruct (h _ r _) as [[res [err|]] w']; simpl.
  - destruct (errors_Is err context_Canceled).
    { eexists [], _. simpl. rewrite app_nil_r. split; reflexivity. }
    destruct (errors_Is err context_DeadlineExceeded).
    { destruct (WriteAPIError_appends r
        (core.NewAPIError http_StatusGatewayTimeout "Request timeout" [])
        (call_log (mkLogCall (ToLogger logger) LevelError "Request timeout"
                     [("path", LString (Path (Url r)))]) w'))
        as [Hr [c [Hl _]]].
      eexists _, _. split; [exact Hr|]. rewrite Hl. simpl.
      rewrite <- app_assoc. reflexivity. }
    destruct (as_APIError err) as [apiErr|]; unfold core.Error.
    + match goal with |- context [core.WriteAPIError r ?e ?w0] =>
        destruct (WriteAPIError_appends r e w0) as [Hr [c [Hl _]]] end.
      eexists _, _. split; [exact Hr|]. rewrite Hl. simpl.
      rewrite <- app_assoc. reflexivity.
    + match goal with |- context [core.WriteAPIError r ?e ?w0] =>
        destruct (WriteAPIError_appends r e w0) as [Hr [c [Hl _]]] end.
      eexists _, _. split; [exact Hr|]. rewrite Hl. simpl.
      rewrite <- app_assoc. reflexivity.
  - exists [], []. rewrite !app_nil_r. split; reflexivity.
Qed.

(** C4. When the handler returns an error that is the cancellation error
    or has it among its causes, the adapter makes no call on the response
    writer (no body, no status: the writer is as the handler left it) and
    its one log call after the handler is at level Info. *)
Theorem AdaptHandler_cancelled_writes_nothing (P B R : Type) `{Zero P} `{Zero B}
    (db : option DB) (logger : Logger) (h : handler.Handler P B R)
    (r : Request) (w : World) (res : R) (err : error) (w' : World) :
  h (handler.AdaptHandler_context db logger (Request_Context r)) r
    (call_log (handler.creating_context_call db logger r) w) = ((res, Some err), w') ->
  errors_Is err context_Canceled = true ->
  response (handler.AdaptHandler db logger h r w) = response w' /\
  written_bodies (response (handler.AdaptHandler db logger h r w)) =
    written_bodies (response w') /\
  written_statuses (response (handler.AdaptHandler db logger h r w)) =
    written_statuses (response w') /\
  logs (handler.AdaptHandler db logger h r w) =
    logs w' ++ [mkLogCall (ToLogger logger) LevelInfo
                  "Request cancelled by client"
                  [("path", LString (Path (Url r)))]].
Proof.
  intros Hh Hc. rewrite AdaptHandler_unfold, Hh, Hc. simpl.
  repeat split; reflexivity.
Qed.

(** A handler that fails with a wrapped cancellation, on a fresh writer:
    nothing is written, the recorder shows no status of the adapter. *)
Lemma AdaptHandler_cancelled_witness :
  let err := ErrWrap "query failed: context canceled" (ErrSentinel context_Canceled) in
  let out :=
    handler.AdaptHandler None 0%nat
      (@marks.failing_handler unit unit unit _ err) marks.GET_test
      marks.empty_World in
  response out = [] /\ written_bodies (response out) = [] /\
  written_statuses (response out) = [] /\
  logs out =
    logs (call_log (handler.creating_context_call None 0%nat marks.GET_test)
            marks.empty_World)
    ++ [mkLogCall (ToLogger 0%nat) LevelInfo "Request cancelled by client"
          [("path", LString "/test")]].
Proof.
  intros err out.
  apply (AdaptHandler_cancelled_writes_nothing unit unit unit None 0%nat
           (marks.failing_handler err) marks.GET_test marks.empty_World
           tt err
           (call_log (handler.creating_context_call None 0%nat marks.GET_test)
              marks.empty_World)).
  - reflexivity.
  - reflexivity.
Defined.

(** The body of the Gateway-Timeout response. *)
Lemma marshal_timeout_error :
  core.marshal_APIError
    (core.NewAPIError http_StatusGatewayTimeout "Request timeout" []) =
  JObject [("code", JNumber 504); ("message", JString "Request timeout")].
Proof. reflexivity. Qed.

(** C5, as the adapter does it.  When the handler returns an error that
    has the deadline-exceeded error as itself or among its causes, and not
    the cancellation error (which the adapter tests first), the adapter sets
    the content type, writes status 504 and writes the JSON object
    [{"error": {"code": 504, "message": "Request timeout"}}]; on a writer
    the handler did not touch, the recorded status is 504. *)
Theorem AdaptHandler_deadline_writes_504 (P B R : Type) `{Zero P} `{Zero B}
    (db : option DB) (logger : Logger) (h : handler.Handler P B R)
    (r : Request) (w : World) (res : R) (err : error) (w' : World) :
  h (handler.AdaptHandler_context db logger (Request_Context r)) r
    (call_log (handler.creating_context_call db logger r) w)
    = ((res, Some err), w') ->
  errors_Is err context_Canceled = false ->
  errors_Is err context_DeadlineExceeded = true ->
  response (handler.AdaptHandler db logger h r w) =
    response w'
    ++ [SetHeader "Content-Type" "application/json";
        WriteHeader 504;
        Write (Encoded
                 (JObject
                    [("error",
                      JObject [("code", JNumber 504);
                               ("message", JString "Request timeout")])]))]
  /\ (response w' = [] ->
      recorder_Code (response (handler.AdaptHandler db logger h r w)) = 504).
Proof.
  intros Hh Hc Hd. rewrite AdaptHandler_unfold, Hh, Hc, Hd.
  destruct (WriteAPIError_appends r
    (core.NewAPIError http_StatusGatewayTimeout "Request timeout" [])
    (call_log (mkLogCall (ToLogger logger) LevelError "Request timeout"
                 [("path", LString (Path (Url r)))]) w')) as [Hr _].
  rewrite Hr. simpl. split; [reflexivity|].
  intros Hw. rewrite Hw. reflexivity.
Qed.

Lemma AdaptHandler_deadline_witness :
  response
    (handler.AdaptHandler None 0%nat
       (@marks.failing_handler unit unit unit _
          (ErrWrap "query failed: context deadline exceeded"
             (ErrSentinel context_DeadlineExceeded)))
       marks.GET_test marks.empty_World) =
    [] ++ [SetHeader "Content-Type" "application/json";
           WriteHeader 504;
           Write (Encoded
                    (JObject
                       [("error",
                         JObject [("code", JNumber 504);
                                  ("message", JString "Request timeout")])]))]
  /\ (@nil ResponseCall = [] ->
      recorder_Code
        (response
           (handler.AdaptHandler None 0%nat
              (@marks.failing_handler unit unit unit _
                 (ErrWrap "query failed: context deadline exceeded"
                    (ErrSentinel context_DeadlineExceeded)))
              marks.GET_test marks.empty_World)) = 504).
Proof.
  apply (AdaptHandler_deadline_writes_504 unit unit unit None 0%nat
           (marks.failing_handler
              (ErrWrap "query failed: context deadline exceeded"
                 (ErrSentinel context_DeadlineExceeded)))
           marks.GET_test marks.empty_World tt
           (ErrWrap "query failed: context deadline exceeded"
              (ErrSentinel context_DeadlineExceeded))
           (call_log (handler.creating_context_call None 0%nat marks.GET_test)
              marks.empty_World)).
  - reflexivity.
  - reflexivity.
  - reflexivity.
Defined.

(** C5 as stated fails: an error with both the cancellation and the
    deadline-exceeded error among its causes is a deadline-exceeded error
    for [errors.Is], and the adapter, which tests for cancellation first,
    writes neither status nor body. *)
Lemma AdaptHandler_deadline_counterexample :
  let err :=
    ErrJoin "context canceled; context deadline exceeded"
      [ErrSentinel context_Canceled; ErrSentinel context_DeadlineExceeded] in
  let out :=
    handler.AdaptHandler None 0%nat
      (@marks.failing_handler unit unit unit _ err) marks.GET_test
      marks.empty_World in
  errors_Is err context_DeadlineExceeded = true /\
  written_statuses (response out) = [] /\
  written_bodies (response out) = [] /\
  ~ In (WriteHeader 504) (response out).
Proof.
  simpl. repeat split; try reflexivity. intros [].
Qed.

(** ** The transaction helper *)

Section with_tx.
Context {S Tx T : Type} `{SqlTx S Tx} `{Zero T}.

(** A callback that panics: [Rollback] is called on the state the callback
    left, nothing else is, and the panic leaves [WithTx] with the same
    value. *)
Lemma WithTx_panic (fn : Tx -> S -> Completion (T * option error) * S)
    (s s1 s2 : S) (tx : Tx) (p : PanicValue) :
  db_Begin s = (inl tx, s1) ->
  fn tx s1 = (Panics p, s2) ->
  db.WithTx fn s = (Panics p, snd (tx_Rollback tx s2)).
Proof.
  intros Hb Hf. unfold db.WithTx. rewrite Hb, Hf.
  destruct (tx_Rollback tx s2). reflexivity.
Qed.


End with_tx.



(** On the in-memory database, whatever the callback did before it
    panicked: [WithTx] adds one call, the rollback, and commits nothing. *)
Lemma WithTx_panic_commits_nothing
    (fn : unit -> MemDB -> Completion (Z * option error) * MemDB)
    (s s2 : MemDB) (p : PanicValue) :
  begin_fault s = None ->
  fn tt (snd (MemDB_Begin s)) = (Panics p, s2) ->
  fst (db.WithTx fn s) = Panics p /\
  committed (snd (db.WithTx fn s)) = committed s2 /\
  pending (snd (db.WithTx fn s)) = None /\
  received (snd (db.WithTx fn s)) = received s2 ++ [CallRollback].
Proof.
  intros Hb Hf.
  assert (db_Begin s = (inl tt, snd (MemDB_Begin s))) as Hbegin.
  { simpl. unfold MemDB_Begin. rewrite Hb. reflexivity. }
  rewrite (WithTx_panic fn s _ s2 tt p Hbegin Hf). simpl.
  unfold MemDB_Rollback. destruct (pending s2); repeat split.
Qed.


(** ** Connecting *)

(** C8. When, after the defaults (25, 25, 5 minutes, 5 minutes) have
    replaced the fields left at zero, [MaxIdleConns] exceeds [MaxOpenConns],
    [Connect] returns the error that names both numbers and has made no
    call on [database/sql]: no [sql.Open], no [Ping]. *)
Theorem Connect_rejects_idle_above_open (config : db.Config)
    (server : db.Server) :
  db.MaxIdleConns (db.with_defaults config)
    > db.MaxOpenConns (db.with_defaults config) ->
  db.Connect config server =
    (inr (ErrText
            ("MaxIdleConns ("
             +:+ fmt_d (db.MaxIdleConns (db.with_defaults config))
             +:+ ") cannot exceed MaxOpenConns ("
             +:+ fmt_d (db.MaxOpenConns (db.with_defaults config)) +:+ ")")),
     []).
Proof.
  intros Hgt. unfold db.Connect.
  destruct (Z.ltb_spec (db.MaxOpenConns (db.with_defaults config))
                       (db.MaxIdleConns (db.with_defaults config))); [|lia].
  reflexivity.
Qed.

Lemma Connect_rejects_witness :
  db.Connect
    (db.mkConfig "localhost" 5432 "app" "secret" "appdb" "disable" 5 0 0 0)
    (db.mkServer None 1%nat None) =
  (inr (ErrText "MaxIdleConns (25) cannot exceed MaxOpenConns (5)"), []).
Proof.
  apply (Connect_rejects_idle_above_open
           (db.mkConfig "localhost" 5432 "app" "secret" "appdb" "disable"
              5 0 0 0)
           (db.mkServer None 1%nat None)).
  vm_compute. reflexivity.
Defined.

(** The defaults are the documented ones. *)
Lemma with_defaults_unset :
  let c := db.with_defaults (db.mkConfig "" 0 "" "" "" "" 0 0 0 0) in
  db.MaxOpenConns c = 25 /\ db.MaxIdleConns c = 25 /\
  db.MaxLifetime c = 5 * 60 * 1000000000 /\
  db.MaxIdleTime c = 5 * 60 * 1000000000.
Proof. repeat split. Qed.

(** ** Registries *)

Section registries.
Import handler registry.

(** A new registry is at an address no existing registry has, it is
    empty, and the existing registries are as they were. *)
Lemma NewRegistry_fresh (h : gmap nat Registry) :
  (fst (NewRegistry h) ∉ dom h) /\
  GetRoutes (fst (NewRegistry h)) (snd (NewRegistry h)) = Some [] /\
  forall Y, Y ∈ dom h ->
    Y <> fst (NewRegistry h) /\
    snd (NewRegistry h) !! Y = h !! Y.
Proof.
  unfold NewRegistry. simpl.
  pose proof (is_fresh (dom h)) as Hf.
  split; [exact Hf|]. split.
  - unfold GetRoutes. rewrite lookup_insert_eq. reflexivity.
  - intros Y HY. assert (Y <> fresh (dom h)) as Hne by (intros ->; contradiction).
    split; [exact Hne|]. apply lookup_insert_ne. congruence.
Qed.

(** Appending to one registry leaves every other registry as it was. *)
Lemma register_other (X Y : nat) (route : PendingRoute)
    (h h' : gmap nat Registry) :
  X <> Y -> register X route h = Some h' -> h' !! Y = h !! Y.
Proof.
  intros Hne. unfold register.
  destruct (h !! X) as [r|]; [|discriminate].
  destruct (Lock (mu r)) as [m|]; [|discriminate].
  intros [= <-]. apply lookup_insert_ne. exact Hne.
Qed.

(** Appending to a registry whose lock is free adds the route at the end. *)
Lemma register_same (X : nat) (route : PendingRoute) (h : gmap nat Registry)
    (l : list PendingRoute) :
  h !! X = Some (mkRegistry l (mkRWMutex false 0)) ->
  exists h', register X route h = Some h' /\
             h' !! X = Some (mkRegistry (l ++ [route]) (mkRWMutex false 0)).
Proof.
  intros HX. unfold register. rewrite HX. simpl.
  eexists. split; [reflexivity|]. apply lookup_insert_eq.
Qed.

End registries.

(** C2.  Two registries created one after the other are at different
    addresses and both empty; the composition call against the first
    succeeds, puts its route into the first, and leaves [GetRoutes] of the
    second as it was, so the route does not appear there; and in any heap,
    a composition call against a registry [X] leaves [GetRoutes] of every
    other registry [Y] unchanged. *)
Theorem registries_do_not_interfere (P B R : Type) `{Zero P} `{Zero B}
    (routeInfo : handler.RouteInfo) (baseHandler : handler.Handler P B R)
    (middleware : list (handler.Middleware P B R)) :
  (forall (h : gmap nat registry.Registry) X Y h1 h2,
     registry.NewRegistry h = (X, h1) ->
     registry.NewRegistry h1 = (Y, h2) ->
     X <> Y /\
     registry.GetRoutes X h2 = Some [] /\
     registry.GetRoutes Y h2 = Some [] /\
     exists h3,
       registry.MakeHandler X routeInfo baseHandler middleware h2 =
         Some (handler.MakeHandler_handler baseHandler middleware, h3) /\
       registry.GetRoutes X h3 =
         Some [handler.MakeHandler_route routeInfo baseHandler middleware] /\
       registry.GetRoutes Y h3 = Some []) /\
  (forall (h h' : gmap nat registry.Registry) X Y hd,
     X <> Y ->
     registry.MakeHandler X routeInfo baseHandler middleware h = Some (hd, h') ->
     registry.GetRoutes Y h' = registry.GetRoutes Y h).
Proof.
  split.
  - intros h X Y h1 h2 HX HY.
    destruct (NewRegistry_fresh h) as (HfX & HgX & _).
    destruct (NewRegistry_fresh h1) as (HfY & HgY & HoldY).
    rewrite HX in HfX, HgX. rewrite HY in HfY, HgY, HoldY. simpl in *.
    assert (X ∈ dom h1) as HXin.
    { unfold registry.NewRegistry in HX. injection HX as HX0 HX1.
      rewrite <- HX1, <- HX0, dom_insert_L.
      apply elem_of_union_l, elem_of_singleton. reflexivity. }
    destruct (HoldY X HXin) as [Hne HXsame].
    assert (h1 !! X = Some (registry.mkRegistry [] (handler.mkRWMutex false 0)))
      as HX1.
    { injection HX as <- <-. apply lookup_insert_eq. }
    assert (h2 !! Y = Some (registry.mkRegistry [] (handler.mkRWMutex false 0)))
      as HY2.
    { injection HY as <- <-. apply lookup_insert_eq. }
    split; [exact Hne|].
    split; [unfold registry.GetRoutes; rewrite HXsame, HX1; reflexivity|].
    split; [exact HgY|].
    destruct (register_same X
      (handler.MakeHandler_route routeInfo baseHandler middleware) h2 [])
      as (h3 & Hreg & Hh3); [rewrite HXsame; exact HX1|].
    exists h3. unfold registry.MakeHandler. rewrite Hreg.
    split; [reflexivity|].
    split; [unfold registry.GetRoutes; rewrite Hh3; reflexivity|].
    unfold registry.GetRoutes.
    rewrite (register_other X Y _ h2 h3 Hne Hreg), HY2. reflexivity.
  - intros h h' X Y hd Hne Hmk. unfold registry.MakeHandler in Hmk.
    destruct (registry.register X _ h) as [h3|] eqn:Hreg; [|discriminate].
    injection Hmk as _ <-. unfold registry.GetRoutes.
    rewrite (register_other X Y _ h h3 Hne Hreg). reflexivity.
Qed.

Lemma registries_do_not_interfere_witness :
  exists X Y h2 h3,
    registry.NewRegistry ∅ = (X, snd (registry.NewRegistry ∅)) /\
    registry.NewRegistry (snd (registry.NewRegistry ∅)) = (Y, h2) /\
    X <> Y /\
    registry.MakeHandler X (handler.mkRouteInfo "GET" "/test1" "" "" [])
      (@marks.marking_handler unit unit unit "H" tt) [] h2 =
      Some (handler.MakeHandler_handler (marks.marking_handler "H" tt) [], h3) /\
    registry.GetRoutes Y h3 = Some [].
Proof.
  pose proof (registries_do_not_interfere unit unit unit
                (handler.mkRouteInfo "GET" "/test1" "" "" [])
                (marks.marking_handler "H" tt) []) as [Hnew _].
  destruct (Hnew ∅ (fst (registry.NewRegistry ∅))
                 (fst (registry.NewRegistry (snd (registry.NewRegistry ∅))))
                 (snd (registry.NewRegistry ∅))
                 (snd (registry.NewRegistry (snd (registry.NewRegistry ∅))))
                 eq_refl eq_refl)
    as (Hne & _ & _ & h3 & Hmk & _ & HY).
  eexists _, _, _, h3.
  split; [reflexivity|]. split; [reflexivity|].
  split; [exact Hne|]. split; [exact Hmk|exact HY].
Defined.

(** ** Goroutines registering at the same time *)

Section goroutines_proofs.
Import handler goroutines.


















End goroutines_proofs.



(** The append is a read and a write: two goroutines that were both past
    the lock at the same time (which [consistent] excludes) would lose a
    route. *)
Lemma append_without_exclusion_loses_a_route :
  let a := marks.test_route "/a" in
  let b := marks.test_route "/b" in
  option_map (fun p => handler.globalRoutes (goroutines.globals p))
    (goroutines.run [0; 1; 0; 1]%nat
       (goroutines.mkProcess
          (handler.mkGlobals [] (handler.mkRWMutex true 0))
          [goroutines.mkGoroutine a goroutines.AtLoad;
           goroutines.mkGoroutine b goroutines.AtLoad]))
  = Some [b].
Proof. reflexivity. Qed.

(* ===================================================================== *)
(** * More properties of the code                                         *)
(* ===================================================================== *)

(** ** The adapter, the remaining error paths *)



(** The response [Error(w, r, status, message)] writes. *)
Lemma core_Error_response (r : Request) (status : Z) (message : string)
    (w : World) :
  response (core.Error r status message w) =
    response w
    ++ [SetHeader "Content-Type" "application/json";
        WriteHeader status;
        Write (Encoded
                 (JObject
                    [("error",
                      JObject [("code", JNumber status);
                               ("message", JString message)])]))].
Proof.
  unfold core.Error.
  destruct (WriteAPIError_appends r (core.NewAPIError status message []) w)
    as [Hr _].
  rewrite Hr. reflexivity.
Qed.

(** X2. A handler that returns an error that is no [core.APIError] and
    has neither context error among its causes: the adapter writes status
    500 and the fixed body with the message "Internal server error",
    whatever the error says; the error's text is not in the response. *)
Theorem AdaptHandler_unclassified_is_generic_500 (P B R : Type)
    `{Zero P} `{Zero B}
    (db : option DB) (logger : Logger) (h : handler.Handler P B R)
    (r : Request) (w : World) (res : R) (err : error) (w' : World) :
  h (handler.AdaptHandler_context db logger (Request_Context r)) r
    (call_log (handler.creating_context_call db logger r) w)
    = ((res, Some err), w') ->
  errors_Is err context_Canceled = false ->
  errors_Is err context_DeadlineExceeded = false ->
  as_APIError err = None ->
  response (handler.AdaptHandler db logger h r w) =
    response w'
    ++ [SetHeader "Content-Type" "application/json";
        WriteHeader 500;
        Write (Encoded
                 (JObject
                    [("error",
                      JObject [("code", JNumber 500);
                               ("message", JString "Internal server error")])]))].
Proof.
  intros Hh Hc Hd Ha. rewrite AdaptHandler_unfold, Hh, Hc, Hd, Ha.
  rewrite core_Error_response. reflexivity.
Qed.

Lemma AdaptHandler_unclassified_witness :
  response
    (handler.AdaptHandler None 0%nat
       (@marks.failing_handler unit unit unit _
          (ErrWrap "query failed: pq: password authentication failed"
             (ErrText "pq: password authentication failed")))
       marks.GET_test marks.empty_World) =
    [] ++ [SetHeader "Content-Type" "application/json";
           WriteHeader 500;
           Write (Encoded
                    (JObject
                       [("error",
                         JObject [("code", JNumber 500);
                                  ("message",
                                   JString "Internal server error")])]))].
Proof.
  exact (AdaptHandler_unclassified_is_generic_500 unit unit unit None 0%nat
           (marks.failing_handler
              (ErrWrap "query failed: pq: password authentication failed"
                 (ErrText "pq: password authentication failed")))
           marks.GET_test marks.empty_World tt
           (ErrWrap "query failed: pq: password authentication failed"
              (ErrText "pq: password authentication failed"))
           (call_log
              (handler.creating_context_call None 0%nat marks.GET_test)
              marks.empty_World)
           eq_refl eq_refl eq_refl eq_refl).
Defined.




(** X4. The earlier revision of the adapter knows no context errors: any
    error that is no [core.APIError], the cancellation and the
    deadline-exceeded error included, is answered with status 500 and the
    fixed body. *)
Theorem early_AdaptHandler_answers_every_other_error_with_500 (P B R : Type)
    `{Zero P} `{Zero B}
    (db : option DB) (logger : Logger) (h : handler.Handler P B R)
    (r : Request) (w : World) (res : R) (err : error) (w' : World) :
  h (handler_early.AdaptHandler_context db logger) r
    (call_log (handler.creating_context_call db logger r) w)
    = ((res, Some err), w') ->
  as_APIError err = None ->
  response (handler_early.AdaptHandler db logger h r w) =
    response w'
    ++ [SetHeader "Content-Type" "application/json";
        WriteHeader 500;
        Write (Encoded
                 (JObject
                    [("error",
                      JObject [("code", JNumber 500);
                               ("message", JString "Internal server error")])]))].
Proof.
  intros Hh Ha. unfold handler_early.AdaptHandler. rewrite Hh, Ha.
  rewrite core_Error_response. reflexivity.
Qed.

Lemma early_AdaptHandler_witness :
  response
    (handler_early.AdaptHandler None 0%nat
       (@marks.failing_handler unit unit unit _ (ErrSentinel context_Canceled))
       marks.GET_test marks.empty_World) =
    [] ++ [SetHeader "Content-Type" "application/json";
           WriteHeader 500;
           Write (Encoded
                    (JObject
                       [("error",
                         JObject [("code", JNumber 500);
                                  ("message",
                                   JString "Internal server error")])]))].
Proof.
  exact (early_AdaptHandler_answers_every_other_error_with_500
           unit unit unit None 0%nat
           (marks.failing_handler (ErrSentinel context_Canceled))
           marks.GET_test marks.empty_World tt
           (ErrSentinel context_Canceled)
           (call_log
              (handler.creating_context_call None 0%nat marks.GET_test)
              marks.empty_World)
           eq_refl eq_refl).
Defined.

(** X5. The two revisions of the adapter do the same for a handler that
    does the same on both contexts and returns no error or an error
    without a context error among its causes: same calls on the writer,
    same log calls. *)
Theorem adapter_revisions_agree_off_context_errors (P B R : Type)
    `{Zero P} `{Zero B}
    (db : option DB) (logger : Logger) (h : handler.Handler P B R)
    (r : Request) (w : World) (res : R) (err : option error) (w' : World) :
  h (handler.AdaptHandler_context db logger (Request_Context r)) r
    (call_log (handler.creating_context_call db logger r) w)
    = ((res, err), w') ->
  h (handler_early.AdaptHandler_context db logger) r
    (call_log (handler.creating_context_call db logger r) w)
    = ((res, err), w') ->
  (forall e, err = Some e ->
     errors_Is e context_Canceled = false /\
     errors_Is e context_DeadlineExceeded = false) ->
  handler.AdaptHandler db logger h r w =
  handler_early.AdaptHandler db logger h r w.
Proof.
  intros Hlate Hearly Hctx.
  rewrite AdaptHandler_unfold, Hlate.
  unfold handler_early.AdaptHandler. rewrite Hearly.
  destruct err as [e|]; [|reflexivity].
  destruct (Hctx e eq_refl) as [Hc Hd]. rewrite Hc, Hd.
  destruct (as_APIError e); reflexivity.
Qed.

Lemma adapter_revisions_agree_witness :
  handler.AdaptHandler None 0%nat
    (@marks.failing_handler unit unit unit _
       (ErrAPI (core.NewAPIError 404 "User not found" [])))
    marks.GET_test marks.empty_World =
  handler_early.AdaptHandler None 0%nat
    (@marks.failing_handler unit unit unit _
       (ErrAPI (core.NewAPIError 404 "User not found" [])))
    marks.GET_test marks.empty_World.
Proof.
  apply (adapter_revisions_agree_off_context_errors unit unit unit None 0%nat
           (marks.failing_handler
              (ErrAPI (core.NewAPIError 404 "User not found" [])))
           marks.GET_test marks.empty_World tt
           (Some (ErrAPI (core.NewAPIError 404 "User not found" [])))
           (call_log
              (handler.creating_context_call None 0%nat marks.GET_test)
              marks.empty_World)).
  - reflexivity.
  - reflexivity.
  - intros e [= <-]. split; reflexivity.
Defined.

(** ** Errors with fields *)

(** X6. [AddField] keeps what was said about a field: a second message
    for the same field is joined to the first by [" || "]; an earlier
    message that is blank is replaced; the other fields, the code, the
    message and the detail are untouched. *)
Theorem AddField_accumulates (e : APIError) (f x y : string) :
  (Fields e !! f = None -> core.is_blank x = false ->
   Fields (core.AddField (core.AddField e f x) f y) !! f
     = Some (x +:+ " || " +:+ y)) /\
  (forall old, Fields e !! f = Some old -> core.is_blank old = true ->
     Fields (core.AddField e f x) !! f = Some x) /\
  (forall g, g <> f -> Fields (core.AddField e f x) !! g = Fields e !! g) /\
  Code (core.AddField e f x) = Code e /\
  Message (core.AddField e f x) = Message e /\
  Detail (core.AddField e f x) = Detail e.
Proof.
  repeat split.
  - intros Hnone Hx. unfold core.AddField at 1. cbn [Fields].
    unfold core.AddField. cbn [Fields]. rewrite Hnone.
    rewrite !lookup_insert_eq. rewrite Hx. reflexivity.
  - intros old Hold Hb. unfold core.AddField. cbn [Fields].
    rewrite Hold, Hb. apply lookup_insert_eq.
  - intros g Hg. unfold core.AddField. cbn [Fields].
    apply lookup_insert_ne. congruence.
Qed.

Lemma AddField_accumulates_witness :
  Fields (core.AddField
            (core.AddField (core.NewValidationError "Validation failed")
               "password" "password is required")
            "password" "password must be at least 8 characters")
    !! "password"
  = Some ("password is required" +:+ " || "
          +:+ "password must be at least 8 characters")
  /\ Fields (core.AddField
               (mkAPIError 400 "Validation failed" "" {[ "email" := "  " ]})
               "email" "email is required") !! "email"
     = Some "email is required"
  /\ Fields (core.AddField
               (mkAPIError 400 "Validation failed" "" {[ "email" := "bad" ]})
               "password" "password is required") !! "email"
     = Fields (mkAPIError 400 "Validation failed" "" {[ "email" := "bad" ]})
         !! "email".
Proof.
  split; [|split].
  - apply (proj1 (AddField_accumulates
                    (core.NewValidationError "Validation failed")
                    "password" "password is required"
                    "password must be at least 8 characters"));
      reflexivity.
  - apply (proj1 (proj2 (AddField_accumulates
                    (mkAPIError 400 "Validation failed" "" {[ "email" := "  " ]})
                    "email" "email is required" "")) "  ");
      reflexivity.
  - apply (proj1 (proj2 (proj2 (AddField_accumulates
                    (mkAPIError 400 "Validation failed" "" {[ "email" := "bad" ]})
                    "password" "password is required" "")))).
    discriminate.
Defined.

(** X7. A validation error with one field, written by [WriteAPIError]:
    status 400, and a body that carries the code, the message and the field
    map, and no detail. *)
Theorem validation_error_response_lists_the_field (r : Request)
    (message f x : string) (w : World) :
  response
    (core.WriteAPIError r
       (core.AddField (core.NewValidationError message) f x) w) =
    response w
    ++ [SetHeader "Content-Type" "application/json";
        WriteHeader 400;
        Write (Encoded
                 (JObject
                    [("error",
                      JObject [("code", JNumber 400);
                               ("message", JString message);
                               ("fields", JStringMap {[ f := x ]})])]))].
Proof.
  destruct (WriteAPIError_appends r
    (core.AddField (core.NewValidationError message) f x) w) as [Hr _].
  rewrite Hr. unfold core.marshal_APIError, core.AddField,
    core.NewValidationError. cbn [Code Message Detail Fields].
  rewrite lookup_empty, insert_empty, map_size_singleton. reflexivity.
Qed.

(** ** Handlers that return an error, outside the typed engine *)

(** X8. [HandlerFunc.ServeHTTP] on an error that is no [core.APIError]:
    status 500, and the error's own text goes to the client as the detail
    of the body. *)
Theorem ServeHTTP_sends_the_error_text (h : core.HandlerFunc) (r : Request)
    (w : World) (err : error) (w' : World) :
  h r w = (Some err, w') ->
  as_APIError err = None ->
  Error_text err <> "" ->
  response (core.ServeHTTP h r w) =
    response w'
    ++ [SetHeader "Content-Type" "application/json";
        WriteHeader 500;
        Write (Encoded
                 (JObject
                    [("error",
                      JObject [("code", JNumber 500);
                               ("message", JString "Internal Server Error");
                               ("detail", JString (Error_text err))])]))].
Proof.
  intros Hh Ha Ht. unfold core.ServeHTTP, core.handleError. rewrite Hh, Ha.
  match goal with |- context [core.WriteAPIError r ?e ?w0] =>
    destruct (WriteAPIError_appends r e w0) as [Hr _] end.
  rewrite Hr. unfold core.marshal_APIError, core.NewAPIError.
  cbn [Code Message Detail Fields response call_log].
  apply String.eqb_neq in Ht. rewrite Ht. reflexivity.
Qed.

Lemma ServeHTTP_witness :
  response
    (core.ServeHTTP
       (fun _ w => (Some (ErrText "pq: relation users does not exist"), w))
       marks.GET_test marks.empty_World) =
    [] ++ [SetHeader "Content-Type" "application/json";
           WriteHeader 500;
           Write (Encoded
                    (JObject
                       [("error",
                         JObject [("code", JNumber 500);
                                  ("message", JString "Internal Server Error");
                                  ("detail",
                                   JString
                                     "pq: relation users does not exist")])]))].
Proof.
  apply (ServeHTTP_sends_the_error_text
           (fun _ w => (Some (ErrText "pq: relation users does not exist"), w))
           marks.GET_test marks.empty_World
           (ErrText "pq: relation users does not exist") marks.empty_World).
  - reflexivity.
  - reflexivity.
  - discriminate.
Defined.



(** ** The names of the middleware *)

Section middleware_names.
Import handler.

Lemma contains_char_cons (c d : ascii) (rest : string) :
  contains_char c (String d rest)
  = (Ascii.eqb c d || contains_char c rest)%bool.
Proof. reflexivity. Qed.

Lemma find_generic_name_cons (c : ascii) (rest : string) :
  find_generic_name (String c rest) =
  if Ascii.eqb c "."%char then
    match rest with
    | String d _ =>
        if is_ident_start d then
          match span_ident rest with
          | (id, String b _) =>
              if Ascii.eqb b "["%char then Some id
              else find_generic_name rest
          | _ => find_generic_name rest
          end
        else find_generic_name rest
    | EmptyString => None
    end
  else find_generic_name rest.
Proof. reflexivity. Qed.

Lemma ident_start_is_ident_char (c : ascii) :
  is_ident_start c = true -> is_ident_char c = true.
Proof. unfold is_ident_char. intros ->. reflexivity. Qed.

Lemma span_ident_identifier (name : string) (c : ascii) (rest : string) :
  all_ident_chars name = true ->
  is_ident_char c = false ->
  span_ident (name +:+ String c rest) = (name, String c rest).
Proof.
  intros Hn Hc. induction name as [|a n IH]; simpl.
  - rewrite Hc. reflexivity.
  - simpl in Hn. apply andb_prop in Hn as [Ha Hn].
    rewrite Ha, (IH Hn). reflexivity.
Qed.

(** What follows the identifier characters at the start of a string is a
    character of that string. *)
Lemma span_ident_stops_before (s id after : string) (b : ascii) :
  span_ident s = (id, String b after) -> contains_char b s = true.
Proof.
  revert id. induction s as [|c rest IH]; intros id.
  - discriminate.
  - cbn [span_ident]. rewrite contains_char_cons.
    destruct (is_ident_char c).
    + destruct (span_ident rest) as [id' after'] eqn:E.
      intros [= _ ->]. rewrite (IH _ eq_refl). apply orb_true_r.
    + intros [= _ -> _]. rewrite Ascii.eqb_refl. reflexivity.
Qed.

(** In a prefix without bracket followed by a dot, the identifier
    characters are not followed by a bracket. *)
Lemma span_ident_in_prefix (p t id after : string) (b : ascii) :
  contains_char "["%char p = false ->
  span_ident (p +:+ String "."%char t) = (id, String b after) ->
  Ascii.eqb b "["%char = false.
Proof.
  revert id. induction p as [|c p IH]; intros id Hp.
  - cbn. intros [= _ <- _]. reflexivity.
  - rewrite contains_char_cons in Hp. apply orb_false_elim in Hp as [Hc Hp].
    change (String c p +:+ String "."%char t)
      with (String c (p +:+ String "."%char t)).
    cbn [span_ident].
    destruct (is_ident_char c).
    + destruct (span_ident (p +:+ String "."%char t)) as [id' after'] eqn:E.
      intros [= _ ->]. exact (IH _ Hp eq_refl).
    + intros [= _ <- _]. rewrite Ascii.eqb_sym. exact Hc.
Qed.

Lemma find_generic_name_after_prefix (p name suffix : string) :
  contains_char "["%char p = false ->
  is_identifier name = true ->
  find_generic_name
    (p +:+ String "."%char (name +:+ String "["%char suffix)) = Some name.
Proof.
  intros Hp Hname.
  assert (find_generic_name
            (String "."%char (name +:+ String "["%char suffix)) = Some name)
    as Hbase.
  { destruct name as [|d n]; [discriminate|].
    simpl in Hname. apply andb_prop in Hname as [Hd Hn].
    cbn [find_generic_name]. change (Ascii.eqb "." ".") with true. cbv iota.
    rewrite span_ident_identifier;
      [|simpl; rewrite (ident_start_is_ident_char d Hd), Hn; reflexivity
       |reflexivity].
    simpl. rewrite Hd. reflexivity. }
  induction p as [|c p IH]; [exact Hbase|].
  rewrite contains_char_cons in Hp. apply orb_false_elim in Hp as [Hc Hp].
  specialize (IH Hp).
  change (String c p +:+ String "."%char (name +:+ String "["%char suffix))
    with (String c (p +:+ String "."%char (name +:+ String "["%char suffix))).
  rewrite find_generic_name_cons.
  destruct (Ascii.eqb c "."%char); [|exact IH].
  destruct (p +:+ String "."%char (name +:+ String "["%char suffix))
    as [|d rest] eqn:E.
  { destruct p; discriminate. }
  destruct (is_ident_start d); [|exact IH].
  destruct (span_ident (String d rest)) as [id [|b after]] eqn:Es;
    [exact IH|].
  rewrite <- E in Es.
  rewrite (span_ident_in_prefix p _ id after b Hp Es). exact IH.
Qed.

Lemma find_generic_name_no_bracket (s : string) :
  contains_char "["%char s = false -> find_generic_name s = None.
Proof.
  induction s as [|c rest IH]; intros Hs; [reflexivity|].
  rewrite contains_char_cons in Hs. apply orb_false_elim in Hs as [Hc Hrest].
  specialize (IH Hrest). rewrite find_generic_name_cons.
  destruct (Ascii.eqb c "."%char); [|exact IH].
  destruct rest as [|d rest']; [reflexivity|].
  destruct (is_ident_start d); [|exact IH].
  destruct (span_ident (String d rest')) as [id [|b after]] eqn:Es;
    [exact IH|].
  destruct (Ascii.eqb b "["%char) eqn:Eb; [|exact IH].
  apply Ascii.eqb_eq in Eb. subst b.
  apply span_ident_stops_before in Es. congruence.
Qed.


Lemma before_bracket_no_bracket (s : string) :
  contains_char "["%char s = false -> before_bracket s = s.
Proof.
  induction s as [|c rest IH]; intros Hs; [reflexivity|].
  rewrite contains_char_cons in Hs. apply orb_false_elim in Hs as [Hc Hrest].
  cbn [before_bracket]. rewrite Ascii.eqb_sym, Hc, (IH Hrest). reflexivity.
Qed.

Lemma last_dot_part_no_bracket (s : string) :
  contains_char "["%char s = false ->
  contains_char "["%char (last_dot_part s) = false.
Proof.
  induction s as [|c rest IH]; intros Hs; [reflexivity|].
  pose proof Hs as Hs'. rewrite contains_char_cons in Hs'.
  apply orb_false_elim in Hs' as [Hc Hrest].
  cbn [last_dot_part].
  destruct (contains_char "."%char rest); [exact (IH Hrest)|].
  destruct (Ascii.eqb c "."%char); [exact Hrest|exact Hs].
Qed.

End middleware_names.

(** X10. A middleware that is an instance of a generic function, with
    the runtime name [path.Name[...]] where the path has no bracket and
    [Name] is an identifier: the name recorded is [Name]. *)
Theorem getMiddlewareName_of_generic_function (P B R : Type)
    (mw : handler.Middleware P B R) (path name suffix : string) :
  handler.funcName mw
    = Some (path +:+ "." +:+ name +:+ "[" +:+ suffix) ->
  handler.contains_char "["%char path = false ->
  is_identifier name = true ->
  handler.getMiddlewareName mw = name.
Proof.
  intros Hf Hp Hn. unfold handler.getMiddlewareName. rewrite Hf.
  change (path +:+ "." +:+ name +:+ "[" +:+ suffix)
    with (path +:+ String "."%char (name +:+ String "["%char suffix)).
  rewrite find_generic_name_after_prefix by assumption. reflexivity.
Qed.

Lemma getMiddlewareName_generic_witness :
  handler.getMiddlewareName
    (@handler.mkMiddleware unit unit unit
       (Some ("github.com/platform-smith-labs/japi-core/middleware/typed"
              +:+ "." +:+ "ResponseJSON" +:+ "[" +:+ "...]"))
       (fun h => h))
  = "ResponseJSON".
Proof.
  apply (getMiddlewareName_of_generic_function unit unit unit _
           "github.com/platform-smith-labs/japi-core/middleware/typed"
           "ResponseJSON" "...]").
  - reflexivity.
  - reflexivity.
  - reflexivity.
Defined.

(** X11. A middleware whose runtime name has no bracket: the name
    recorded is what follows the last dot of the runtime name (the whole
    name when it has no dot), and ["unknown"] when that is empty or the
    single character ["]"]. *)
Theorem getMiddlewareName_of_plain_function (P B R : Type)
    (mw : handler.Middleware P B R) (fullName : string) :
  handler.funcName mw = Some fullName ->
  handler.contains_char "["%char fullName = false ->
  handler.getMiddlewareName mw =
    if (String.eqb (handler.last_dot_part fullName) ""
        || String.eqb (handler.last_dot_part fullName) "]")%bool
    then "unknown"
    else handler.last_dot_part fullName.
Proof.
  intros Hf Hb. unfold handler.getMiddlewareName. rewrite Hf.
  rewrite find_generic_name_no_bracket by assumption.
  rewrite before_bracket_no_bracket
    by (apply last_dot_part_no_bracket; assumption).
  destruct (String.eqb (handler.last_dot_part fullName) "");
    destruct (String.eqb (handler.last_dot_part fullName) "]"); reflexivity.
Qed.

Lemma getMiddlewareName_plain_witness :
  handler.getMiddlewareName
    (@handler.mkMiddleware unit unit unit
       (Some "github.com/acme/shop/handlers.TestMiddlewareNames.func1.1")
       (fun h => h))
  = "1".
Proof.
  apply (getMiddlewareName_of_plain_function unit unit unit _
           "github.com/acme/shop/handlers.TestMiddlewareNames.func1.1").
  - reflexivity.
  - reflexivity.
Defined.


(** ** Binding the collected routes *)

Section binding.
Import handler.

Lemma registerRoute_fold (database : option DB) (logger : Logger)
    (routes : list PendingRoute) (r : Router) :
  foldl (fun r route =>
           registerRoute r (PMethod route) (PPath route)
             (PHandler route database logger)) r routes =
  r ++ List.map (bound database logger)
         (List.filter (fun route => known_method (PMethod route)) routes).
Proof.
  revert r. induction routes as [|route routes IH]; intros r; simpl.
  - rewrite app_nil_r. reflexivity.
  - rewrite IH. unfold registerRoute.
    destruct (known_method (PMethod route)); simpl; [|reflexivity].
    rewrite <- app_assoc. reflexivity.
Qed.

Lemma MakeHandler_each_appends {P B R} `{Zero P} `{Zero B}
    (calls : list (RouteInfo * Handler P B R * list (Middleware P B R)))
    (g : Globals) :
  routesMutex g = mkRWMutex false 0 ->
  MakeHandler_each calls g =
    Some (mkGlobals
            (globalRoutes g
               ++ List.map (fun c => MakeHandler_route (fst (fst c))
                                       (snd (fst c)) (snd c)) calls)
            (mkRWMutex false 0)).
Proof.
  revert g. induction calls as [|[[ri base] mws] calls IH]; intros g Hm.
  - simpl. rewrite app_nil_r. destruct g as [routes m]. simpl in *.
    rewrite Hm. reflexivity.
  - cbn [MakeHandler_each].
    rewrite (MakeHandler_returns_foldr ri base mws g Hm).
    rewrite IH by reflexivity. simpl. rewrite <- app_assoc. reflexivity.
Qed.

End binding.

(** X13. [RegisterCollectedRoutes] binds, after what the router already
    has and in the order of collection, exactly the routes whose verb is
    one of GET, POST, PUT, DELETE, PATCH, HEAD, OPTIONS (spelled so), each
    with its path and its adapted handler; a route with another verb is
    left out without a word; while a writer holds the mutex it waits. *)
Theorem RegisterCollectedRoutes_binds_known_verbs (r : handler.Router)
    (database : option DB) (logger : Logger) (g : handler.Globals) :
  handler.RegisterCollectedRoutes r database logger g =
    if handler.writer (handler.routesMutex g) then None
    else
      Some (r ++ List.map (bound database logger)
                   (List.filter
                      (fun route => handler.known_method (handler.PMethod route))
                      (handler.globalRoutes g))).
Proof.
  unfold handler.RegisterCollectedRoutes, handler.RLock.
  destruct (handler.writer (handler.routesMutex g)); [reflexivity|].
  rewrite registerRoute_fold. reflexivity.
Qed.

(** X14. From program start: one [MakeHandler] call, then
    [RegisterCollectedRoutes] on an empty router.  The router has one
    entry, the route's verb and path with the adapter around the base
    handler wrapped by the middleware, the first of the list outermost; or
    no entry when the verb is not a known one. *)
Theorem MakeHandler_route_is_bound_to_the_adapted_handler (P B R : Type)
    `{Zero P} `{Zero B}
    (routeInfo : handler.RouteInfo) (baseHandler : handler.Handler P B R)
    (middleware : list (handler.Middleware P B R))
    (database : option DB) (logger : Logger) :
  exists h g,
    handler.MakeHandler routeInfo baseHandler middleware handler.initial_Globals
      = Some (h, g) /\
    handler.RegisterCollectedRoutes [] database logger g =
      Some (if handler.known_method (handler.RMethod routeInfo) then
              [(handler.RMethod routeInfo, handler.RPath routeInfo,
                handler.AdaptHandler database logger
                  (foldr handler.wrap baseHandler middleware))]
            else []).
Proof.
  eexists _, _. split.
  - apply MakeHandler_returns_foldr. reflexivity.
  - unfold handler.RegisterCollectedRoutes. simpl.
    unfold handler.registerRoute. simpl.
    destruct (handler.known_method (handler.RMethod routeInfo));
      [|reflexivity].
    unfold handler.TypedHandler_Adapt. rewrite MakeHandler_handler_foldr.
    reflexivity.
Qed.

(** X15. [MakeHandler] calls made one after the other from program
    start all succeed, and [GetCollectedRoutes] then returns their routes
    in the order of the calls. *)
Theorem MakeHandler_calls_are_collected_in_order (P B R : Type)
    `{Zero P} `{Zero B}
    (calls : list (handler.RouteInfo * handler.Handler P B R
                   * list (handler.Middleware P B R))) :
  exists g,
    MakeHandler_each calls handler.initial_Globals = Some g /\
    handler.GetCollectedRoutes g =
      Some (List.map (fun c => handler.MakeHandler_route (fst (fst c))
                                 (snd (fst c)) (snd c)) calls) /\
    List.map handler.PPath (handler.globalRoutes g) =
      List.map (fun c => handler.RPath (fst (fst c))) calls.
Proof.
  eexists. split; [apply MakeHandler_each_appends; reflexivity|].
  split; [reflexivity|].
  simpl. rewrite List.map_map. reflexivity.
Qed.

(** X16. The documentation marks a route as requiring authentication
    exactly when one of its middleware got the name RequireAuth; a
    middleware whose runtime name is [path.RequireAuth[...]] (an instance
    of the generic function, or a closure it returned) gets that name. *)
Theorem requiresAuth_follows_the_middleware_names (P B R : Type)
    `{Zero P} `{Zero B}
    (routeInfo : handler.RouteInfo) (baseHandler : handler.Handler P B R)
    (middleware : list (handler.Middleware P B R)) :
  (swagger.requiresAuth
     (handler.MakeHandler_route routeInfo baseHandler middleware) = true <->
   exists mw, In mw middleware /\
              handler.getMiddlewareName mw = "RequireAuth") /\
  (forall mw path suffix,
     In mw middleware ->
     handler.funcName mw = Some (path +:+ "." +:+ "RequireAuth" +:+ "[" +:+ suffix) ->
     handler.contains_char "["%char path = false ->
     swagger.requiresAuth
       (handler.MakeHandler_route routeInfo baseHandler middleware) = true).
Proof.
  assert (swagger.requiresAuth
            (handler.MakeHandler_route routeInfo baseHandler middleware) = true <->
          exists mw, In mw middleware /\
                     handler.getMiddlewareName mw = "RequireAuth") as Hiff.
  { unfold swagger.requiresAuth. simpl. rewrite existsb_exists. split.
    - intros (name & Hin & Heq). apply in_map_iff in Hin as (mw & <- & Hmw).
      apply String.eqb_eq in Heq. exists mw. split; assumption.
    - intros (mw & Hmw & Hname). exists (handler.getMiddlewareName mw).
      split; [apply in_map; exact Hmw|]. rewrite Hname. reflexivity. }
  split; [exact Hiff|].
  intros mw path suffix Hin Hf Hp. apply Hiff. exists mw.
  split; [exact Hin|].
  unfold handler.getMiddlewareName. rewrite Hf.
  change (path +:+ "." +:+ "RequireAuth" +:+ "[" +:+ suffix)
    with (path +:+ String "."%char ("RequireAuth" +:+ String "["%char suffix)).
  rewrite find_generic_name_after_prefix; [reflexivity|exact Hp|reflexivity].
Qed.

Lemma requiresAuth_witness :
  swagger.requiresAuth
    (handler.MakeHandler_route (handler.mkRouteInfo "GET" "/protected" "" "" [])
       (@marks.marking_handler unit unit unit "H" tt)
       [handler.mkMiddleware
          (Some ("github.com/platform-smith-labs/japi-core/middleware/typed"
                 +:+ "." +:+ "RequireAuth" +:+ "[" +:+ "...].func1"))
          (fun h => h)]) = true.
Proof.
  apply (proj2 (requiresAuth_follows_the_middleware_names unit unit unit
                  (handler.mkRouteInfo "GET" "/protected" "" "" [])
                  (marks.marking_handler "H" tt)
                  [handler.mkMiddleware
                     (Some ("github.com/platform-smith-labs/japi-core/middleware/typed"
                            +:+ "." +:+ "RequireAuth" +:+ "[" +:+ "...].func1"))
                     (fun h => h)])
          (handler.mkMiddleware
             (Some ("github.com/platform-smith-labs/japi-core/middleware/typed"
                    +:+ "." +:+ "RequireAuth" +:+ "[" +:+ "...].func1"))
             (fun h => h))
          "github.com/platform-smith-labs/japi-core/middleware/typed"
          "...].func1").
  - left. reflexivity.
  - reflexivity.
  - reflexivity.
Defined.

(** ** Concurrent registration keeps what was there *)

Section goroutines_prefix.
Import handler goroutines.



End goroutines_prefix.



(** ** Connecting, the other paths *)

(** X18. [Connect] returns a handle exactly when the idle limit does not
    exceed the open limit (after the defaults), [sql.Open] succeeds and the
    ping succeeds; it then has opened with driver pgx, set the four pool
    limits to the values after the defaults, in this order, and pinged,
    and has not closed the handle. *)
Theorem Connect_succeeds_exactly_when (config : db.Config) (server : db.Server) :
  ((exists handle calls, db.Connect config server = (inl handle, calls)) <->
   (db.MaxIdleConns (db.with_defaults config)
      <= db.MaxOpenConns (db.with_defaults config) /\
    db.open_error server = None /\ db.ping_error server = None)) /\
  (db.MaxIdleConns (db.with_defaults config)
     <= db.MaxOpenConns (db.with_defaults config) ->
   db.open_error server = None -> db.ping_error server = None ->
   exists dsn,
     db.Connect config server =
       (inl (db.opened server),
        [db.sql_Open "pgx" dsn;
         db.SetMaxOpenConns (db.MaxOpenConns (db.with_defaults config));
         db.SetMaxIdleConns (db.MaxIdleConns (db.with_defaults config));
         db.SetConnMaxLifetime (db.MaxLifetime (db.with_defaults config));
         db.SetConnMaxIdleTime (db.MaxIdleTime (db.with_defaults config));
         db.Ping])).
Proof.
  assert (db.MaxIdleConns (db.with_defaults config)
            <= db.MaxOpenConns (db.with_defaults config) ->
          db.open_error server = None -> db.ping_error server = None ->
          exists dsn,
            db.Connect config server =
              (inl (db.opened server),
               [db.sql_Open "pgx" dsn;
                db.SetMaxOpenConns (db.MaxOpenConns (db.with_defaults config));
                db.SetMaxIdleConns (db.MaxIdleConns (db.with_defaults config));
                db.SetConnMaxLifetime (db.MaxLifetime (db.with_defaults config));
                db.SetConnMaxIdleTime (db.MaxIdleTime (db.with_defaults config));
                db.Ping])) as Hok.
  { intros Hv Ho Hp. unfold db.Connect.
    destruct (Z.ltb_spec (db.MaxOpenConns (db.with_defaults config))
                         (db.MaxIdleConns (db.with_defaults config))); [lia|].
    rewrite Ho, Hp. eexists. reflexivity. }
  split; [|exact Hok]. split.
  - intros (handle & calls & Hc). unfold db.Connect in Hc.
    destruct (Z.ltb_spec (db.MaxOpenConns (db.with_defaults config))
                         (db.MaxIdleConns (db.with_defaults config)));
      [discriminate|].
    destruct (db.open_error server); [discriminate|].
    destruct (db.ping_error server); [discriminate|].
    repeat split. lia.
  - intros (Hv & Ho & Hp). destruct (Hok Hv Ho Hp) as [dsn Hc].
    eexists _, _. exact Hc.
Qed.

Lemma Connect_succeeds_witness :
  exists dsn,
    db.Connect
      (db.mkConfig "localhost" 5432 "app" "secret" "appdb" "disable" 0 0 0 0)
      (db.mkServer None 7%nat None) =
    (inl 7%nat,
     [db.sql_Open "pgx" dsn; db.SetMaxOpenConns 25; db.SetMaxIdleConns 25;
      db.SetConnMaxLifetime 300000000000; db.SetConnMaxIdleTime 300000000000;
      db.Ping]).
Proof.
  apply (proj2 (Connect_succeeds_exactly_when
                  (db.mkConfig "localhost" 5432 "app" "secret" "appdb"
                     "disable" 0 0 0 0)
                  (db.mkServer None 7%nat None))).
  - vm_compute. discriminate.
  - reflexivity.
  - reflexivity.
Defined.

(** X19. When the configuration is valid and the open or the ping fails,
    [Connect] returns no handle and an error that wraps the cause
    ([errors.Is] sees through it).  After a failed open nothing else is
    called; after a failed ping the last call is [Close]. *)
Theorem Connect_failure_wraps_and_closes (config : db.Config)
    (server : db.Server) (err : error) :
  db.MaxIdleConns (db.with_defaults config)
    <= db.MaxOpenConns (db.with_defaults config) ->
  (db.open_error server = Some err ->
   exists dsn e,
     db.Connect config server = (inr e, [db.sql_Open "pgx" dsn]) /\
     Error_text e = "failed to open database: " +:+ Error_text err /\
     forall target, errors_Is e target = errors_Is err target) /\
  (db.open_error server = None -> db.ping_error server = Some err ->
   exists calls e,
     db.Connect config server = (inr e, calls ++ [db.Close]) /\
     last calls = Some db.Ping /\
     Error_text e = "failed to ping database: " +:+ Error_text err /\
     forall target, errors_Is e target = errors_Is err target).
Proof.
  intros Hv. split.
  - intros Ho. unfold db.Connect.
    destruct (Z.ltb_spec (db.MaxOpenConns (db.with_defaults config))
                         (db.MaxIdleConns (db.with_defaults config))); [lia|].
    rewrite Ho. eexists _, _. split; [reflexivity|]. split; reflexivity.
  - intros Ho Hp. unfold db.Connect.
    destruct (Z.ltb_spec (db.MaxOpenConns (db.with_defaults config))
                         (db.MaxIdleConns (db.with_defaults config))); [lia|].
    rewrite Ho, Hp. eexists _, _. split; [reflexivity|].
    split; [reflexivity|]. split; reflexivity.
Qed.

Lemma Connect_failure_witness :
  exists calls e,
    db.Connect
      (db.mkConfig "localhost" 5432 "app" "secret" "appdb" "disable" 0 0 0 0)
      (db.mkServer None 7%nat (Some (ErrSentinel context_DeadlineExceeded)))
      = (inr e, calls ++ [db.Close]) /\
    last calls = Some db.Ping /\
    Error_text e =
      "failed to ping database: "
      +:+ Error_text (ErrSentinel context_DeadlineExceeded) /\
    forall target,
      errors_Is e target =
      errors_Is (ErrSentinel context_DeadlineExceeded) target.
Proof.
  apply (proj2 (Connect_failure_wraps_and_closes
                  (db.mkConfig "localhost" 5432 "app" "secret" "appdb"
                     "disable" 0 0 0 0)
                  (db.mkServer None 7%nat
                     (Some (ErrSentinel context_DeadlineExceeded)))
                  (ErrSentinel context_DeadlineExceeded)
                  ltac:(vm_compute; discriminate))).
  - reflexivity.
  - reflexivity.
Defined.

(** X20. A configuration that sets only a small open limit is rejected:
    with [MaxIdleConns] left at zero and [MaxOpenConns] between 1 and 24,
    the idle default of 25 exceeds the open limit, and [Connect] returns
    the validation error without touching the database. *)
Theorem Connect_rejects_small_pool_without_idle_limit (config : db.Config)
    (server : db.Server) :
  db.MaxIdleConns config = 0 ->
  0 < db.MaxOpenConns config < 25 ->
  db.Connect config server =
    (inr (ErrText ("MaxIdleConns (25) cannot exceed MaxOpenConns ("
                   +:+ fmt_d (db.MaxOpenConns config) +:+ ")")),
     []).
Proof.
  intros Hi Ho. unfold db.Connect, db.with_defaults.
  cbn [db.MaxOpenConns db.MaxIdleConns]. rewrite Hi.
  change (Z.eqb 0 0) with true. cbv iota.
  destruct (Z.eqb_spec (db.MaxOpenConns config) 0); [lia|].
  destruct (Z.ltb_spec (db.MaxOpenConns config) 25); [|lia].
  reflexivity.
Qed.

Lemma Connect_rejects_small_pool_witness :
  db.Connect
    (db.mkConfig "localhost" 5432 "app" "secret" "appdb" "disable" 10 0 0 0)
    (db.mkServer None 7%nat None) =
  (inr (ErrText ("MaxIdleConns (25) cannot exceed MaxOpenConns ("
                 +:+ fmt_d 10 +:+ ")")), []).
Proof.
  apply (Connect_rejects_small_pool_without_idle_limit
           (db.mkConfig "localhost" 5432 "app" "secret" "appdb" "disable"
              10 0 0 0)
           (db.mkServer None 7%nat None)).
  - reflexivity.
  - simpl. lia.
Defined.

(** ** The transaction helper, the other paths *)

(** X21. [WithTx] returns a result with a nil error only when the
    transaction was begun, the callback returned that result with a nil
    error, and the commit succeeded; the state is then the one the commit
    left. *)
Theorem WithTx_success_means_committed (S Tx T : Type) `{SqlTx S Tx} `{Zero T}
    (fn : Tx -> S -> Completion (T * option error) * S) (s : S) (v : T) :
  fst (db.WithTx fn s) = Returns (v, None) ->
  exists tx s1 s2 s3,
    db_Begin s = (inl tx, s1) /\
    fn tx s1 = (Returns (v, None), s2) /\
    tx_Commit tx s2 = (None, s3) /\
    snd (db.WithTx fn s) = s3.
Proof.
  unfold db.WithTx.
  destruct (db_Begin s) as [[tx|err] s1] eqn:Hb; [|discriminate].
  destruct (fn tx s1) as [[[result [err|]]|p] s2] eqn:Hf.
  - destruct (tx_Rollback tx s2) as [[rbErr|] s3]; discriminate.
  - destruct (tx_Commit tx s2) as [[err|] s3] eqn:Hc; [discriminate|].
    simpl. intros [= <-]. exists tx, s1, s2, s3. repeat split; assumption.
  - destruct (tx_Rollback tx s2). discriminate.
Qed.

Lemma WithTx_success_witness :
  exists tx s1 s2 s3,
    db_Begin (fresh_MemDB None) = (inl tx, s1) /\
    (fun (_ : unit) (s : MemDB) =>
       (Returns (1, None), snd (MemDB_Exec "INSERT 1" s))) tx s1
      = (Returns (1, @None error), s2) /\
    tx_Commit tx s2 = (None, s3) /\
    committed s3 = ["INSERT 1"].
Proof.
  assert (fst (db.WithTx
                 (fun (_ : unit) (s : MemDB) =>
                    (Returns (1, @None error), snd (MemDB_Exec "INSERT 1" s)))
                 (fresh_MemDB None)) = Returns (1, None)) as Hok
    by reflexivity.
  destruct (WithTx_success_means_committed MemDB unit Z
              (fun _ s => (Returns (1, None), snd (MemDB_Exec "INSERT 1" s)))
              (fresh_MemDB None) 1 Hok)
    as (tx & s1 & s2 & s3 & Hb & Hf & Hc & Hs).
  exists tx, s1, s2, s3. repeat split; try assumption.
  rewrite <- Hs. reflexivity.
Defined.

(** X22. When [db.Begin()] fails, the callback is not run: whatever the
    callback, [WithTx] returns the zero value with an error that wraps the
    cause, and the state is the one [Begin] left. *)
Theorem WithTx_begin_failure_skips_the_callback (S Tx T : Type)
    `{SqlTx S Tx} `{Zero T}
    (fn : Tx -> S -> Completion (T * option error) * S) (s s1 : S)
    (err : error) :
  db_Begin s = (inr err, s1) ->
  exists e,
    db.WithTx fn s = (Returns (zero, Some e), s1) /\
    Error_text e = "failed to begin transaction: " +:+ Error_text err /\
    forall target, errors_Is e target = errors_Is err target.
Proof.
  intros Hb. unfold db.WithTx. rewrite Hb.
  eexists. split; [reflexivity|]. split; reflexivity.
Qed.

Lemma WithTx_begin_failure_witness :
  exists e,
    db.WithTx exec_then_fail
      (mkMemDB [] None [] (Some (ErrSentinel context_Canceled)) None None)
    = (Returns (0, Some e),
       mkMemDB [] None [CallBegin] (Some (ErrSentinel context_Canceled))
         None None) /\
    Error_text e =
      "failed to begin transaction: "
      +:+ Error_text (ErrSentinel context_Canceled) /\
    forall target,
      errors_Is e target = errors_Is (ErrSentinel context_Canceled) target.
Proof.
  exact (WithTx_begin_failure_skips_the_callback MemDB unit Z exec_then_fail
           (mkMemDB [] None [] (Some (ErrSentinel context_Canceled)) None None)
           (mkMemDB [] None [CallBegin] (Some (ErrSentinel context_Canceled))
              None None)
           (ErrSentinel context_Canceled) eq_refl).
Defined.

(** X23. When the callback returns no error and the commit fails,
    [WithTx] returns the zero value, not the callback's result, with an
    error that wraps the commit error; no rollback is called: the state is
    the one the commit left. *)
Theorem WithTx_commit_failure (S Tx T : Type) `{SqlTx S Tx} `{Zero T}
    (fn : Tx -> S -> Completion (T * option error) * S) (s s1 s2 s3 : S)
    (tx : Tx) (result : T) (err : error) :
  db_Begin s = (inl tx, s1) ->
  fn tx s1 = (Returns (result, None), s2) ->
  tx_Commit tx s2 = (Some err, s3) ->
  exists e,
    db.WithTx fn s = (Returns (zero, Some e), s3) /\
    Error_text e = "failed to commit transaction: " +:+ Error_text err /\
    forall target, errors_Is e target = errors_Is err target.
Proof.
  intros Hb Hf Hc. unfold db.WithTx. rewrite Hb, Hf, Hc.
  eexists. split; [reflexivity|]. split; reflexivity.
Qed.

Lemma WithTx_commit_failure_witness :
  exists e,
    db.WithTx
      (fun (_ : unit) (s : MemDB) =>
         (Returns (1, None), snd (MemDB_Exec "INSERT 1" s)))
      (mkMemDB [] None [] None (Some (ErrText "connection lost")) None)
    = (Returns (0, Some e),
       mkMemDB [] None [CallBegin; CallExec "INSERT 1"; CallCommit]
         None (Some (ErrText "connection lost")) None) /\
    Error_text e = "failed to commit transaction: " +:+ "connection lost" /\
    forall target,
      errors_Is e target = errors_Is (ErrText "connection lost") target.
Proof.
  exact (WithTx_commit_failure MemDB unit Z
           (fun _ s => (Returns (1, None), snd (MemDB_Exec "INSERT 1" s)))
           (mkMemDB [] None [] None (Some (ErrText "connection lost")) None)
           (mkMemDB [] (Some []) [CallBegin] None
              (Some (ErrText "connection lost")) None)
           (mkMemDB [] (Some ["INSERT 1"]) [CallBegin; CallExec "INSERT 1"]
              None (Some (ErrText "connection lost")) None)
           (mkMemDB [] None [CallBegin; CallExec "INSERT 1"; CallCommit]
              None (Some (ErrText "connection lost")) None)
           tt 1 (ErrText "connection lost") eq_refl eq_refl eq_refl).
Defined.

(** X24. When the callback returns an error and the rollback fails too,
    the error [WithTx] returns carries both messages as text and no cause:
    [errors.Is] finds neither context error in it, and it is no
    [core.APIError] even when the callback's error was one; the adapter
    answers it with 500. *)
Theorem WithTx_failed_rollback_drops_the_cause (S Tx T : Type)
    `{SqlTx S Tx} `{Zero T}
    (fn : Tx -> S -> Completion (T * option error) * S) (s s1 s2 s3 : S)
    (tx : Tx) (result : T) (err rbErr : error) :
  db_Begin s = (inl tx, s1) ->
  fn tx s1 = (Returns (result, Some err), s2) ->
  tx_Rollback tx s2 = (Some rbErr, s3) ->
  exists e,
    db.WithTx fn s = (Returns (zero, Some e), s3) /\
    Error_text e =
      "transaction failed: " +:+ Error_text err
      +:+ ", rollback failed: " +:+ Error_text rbErr /\
    (forall target, errors_Is e target = false) /\
    as_APIError e = None /\
    adapter_status (Some e) = [500].
Proof.
  intros Hb Hf Hr. unfold db.WithTx. rewrite Hb, Hf, Hr.
  eexists. split; [reflexivity|]. repeat split.
Qed.

Lemma WithTx_failed_rollback_witness :
  exists e,
    db.WithTx
      (fun (_ : unit) (s : MemDB) =>
         (Returns (1, Some (ErrSentinel context_Canceled)),
          snd (MemDB_Exec "INSERT 1" s)))
      (fresh_MemDB (Some (ErrText "connection lost")))
    = (Returns (0, Some e),
       mkMemDB [] None [CallBegin; CallExec "INSERT 1"; CallRollback]
         None None (Some (ErrText "connection lost"))) /\
    Error_text e =
      "transaction failed: " +:+ "context canceled"
      +:+ ", rollback failed: " +:+ "connection lost" /\
    (forall target, errors_Is e target = false) /\
    as_APIError e = None /\
    adapter_status (Some e) = [500].
Proof.
  exact (WithTx_failed_rollback_drops_the_cause MemDB unit Z
           (fun _ s =>
              (Returns (1, Some (ErrSentinel context_Canceled)),
               snd (MemDB_Exec "INSERT 1" s)))
           (fresh_MemDB (Some (ErrText "connection lost")))
           (mkMemDB [] (Some []) [CallBegin] None None
              (Some (ErrText "connection lost")))
           (mkMemDB [] (Some ["INSERT 1"]) [CallBegin; CallExec "INSERT 1"]
              None None (Some (ErrText "connection lost")))
           (mkMemDB [] None [CallBegin; CallExec "INSERT 1"; CallRollback]
              None None (Some (ErrText "connection lost")))
           tt 1 (ErrSentinel context_Canceled) (ErrText "connection lost")
           eq_refl eq_refl eq_refl).
Defined.

(** ** Optional values, the accessors together *)

(** X25. The accessors of a [Nullable] agree with one another: [Value]
    returns exactly when [HasValue] is true, and then what [TryValue]
    gives; [TryValue] reports [HasValue]; [ValueOrDefault] is [ValueOr]
    with the zero value; with a value present [ValueOr] ignores its
    default; and for the optionals the constructors build, [TryValue]
    gives the zero value when nothing is present. *)
Theorem Nullable_accessors_agree (T : Type) `{Zero T}
    (n : handler.Nullable T) (v d : T) :
  (handler.Value n = Returns v <->
   handler.HasValue n = true /\ handler.TryValue n = (v, true)) /\
  ((exists p, handler.Value n = Panics p) <-> handler.HasValue n = false) /\
  snd (handler.TryValue n) = handler.HasValue n /\
  handler.ValueOrDefault n = handler.ValueOr n zero /\
  (handler.HasValue n = true ->
   handler.ValueOr n d = fst (handler.TryValue n)) /\
  handler.TryValue (handler.NewNullable v) = (v, true) /\
  handler.TryValue (@handler.Nil T _) = (zero, false).
Proof.
  destruct n as [x [|]];
    unfold handler.Value, handler.HasValue, handler.TryValue,
      handler.ValueOrDefault, handler.ValueOr; simpl;
    repeat split; intros;
    repeat match goal with
           | Hc : _ /\ _ |- _ => destruct Hc
           | Hc : exists _, _ |- _ => destruct Hc
           end;
    try congruence; try (eexists; reflexivity).
Qed.

Lemma Nullable_accessors_agree_witness :
  handler.Value (handler.NewNullable 42) = Returns 42 /\
  handler.ValueOr (handler.NewNullable 42) 10 = 42.
Proof.
  destruct (Nullable_accessors_agree Z (handler.NewNullable 42) 42 10)
    as (Hv & _ & _ & _ & Hor & _).
  split.
  - apply Hv. split; reflexivity.
  - rewrite (Hor eq_refl). reflexivity.
Defined.

(** X26. The two revisions of [Value] agree on an optional that has a
    value, and differ on one that has none: the earlier panics, the later
    returns the zero value with a [core.APIError] of code 500, which the
    adapter answers with status 500. *)
Theorem Value_revisions (T : Type) `{Zero T} (n : handler.Nullable T) (v : T) :
  (handler.Value n = Returns v <-> handler_late.Value n = (v, None)) /\
  ((exists p, handler.Value n = Panics p) <->
   handler_late.Value n =
     (zero, Some (ErrAPI (core.NewAPIError 500
                            "nullable value is not present" [])))) /\
  adapter_status (snd (handler_late.Value (@handler.Nil T _))) = [500].
Proof.
  destruct n as [x [|]]; unfold handler.Value, handler_late.Value; simpl;
    repeat split; intros;
    repeat match goal with
           | Hc : _ /\ _ |- _ => destruct Hc
           | Hc : exists _, _ |- _ => destruct Hc
           end;
    try congruence; try (eexists; reflexivity).
Qed.

Lemma Value_revisions_witness :
  handler_late.Value (handler.NewNullable 42) = (42, None).
Proof.
  apply (proj1 (proj1 (Value_revisions Z (handler.NewNullable 42) 42))).
  reflexivity.
Defined.

(** ** The response-writing middleware *)



(** X28. When the result does not marshal, [ResponseJSON] has already
    sent the content type and the success status; it returns a
    [core.APIError] of code 500, and the adapter then writes a second
    status, 500, and the error body.  A writer that keeps the first status
    shows 200 or 201 over a body that reports an error. *)
Theorem ResponseJSON_marshal_failure_comes_after_the_status (P B R : Type)
    `{Zero P} `{Zero B}
    (marshal : R -> json + error)
    (db : option DB) (logger : Logger) (h : handler.Handler P B R)
    (r : Request) (w : World) (res : R) (w' : World) (merr : error) :
  h (handler.AdaptHandler_context db logger (Request_Context r)) r
    (call_log (handler.creating_context_call db logger r) w)
    = ((res, None), w') ->
  marshal res = inr merr ->
  response
    (handler.AdaptHandler db logger (typed.ResponseJSON marshal h) r w) =
    response w'
    ++ [SetHeader "Content-Type" "application/json";
        WriteHeader (if String.eqb (Method r) "POST" then 201 else 200);
        SetHeader "Content-Type" "application/json";
        WriteHeader 500;
        Write (Encoded
                 (JObject
                    [("error",
                      JObject [("code", JNumber 500);
                               ("message",
                                JString "Failed to write response")])]))]
  /\ (response w' = [] ->
      recorder_Code
        (response
           (handler.AdaptHandler db logger (typed.ResponseJSON marshal h) r w))
      = if String.eqb (Method r) "POST" then 201 else 200).
Proof.
  intros Hh Hm.
  assert (response
            (handler.AdaptHandler db logger (typed.ResponseJSON marshal h) r w) =
          response w'
          ++ [SetHeader "Content-Type" "application/json";
              WriteHeader (if String.eqb (Method r) "POST" then 201 else 200);
              SetHeader "Content-Type" "application/json";
              WriteHeader 500;
              Write (Encoded
                       (JObject
                          [("error",
                            JObject [("code", JNumber 500);
                                     ("message",
                                      JString "Failed to write response")])]))])
    as Hresp.
  { rewrite AdaptHandler_unfold.
    unfold typed.ResponseJSON, core.JSON_of, typed.ctx_log. rewrite Hh, Hm.
    cbn [handler.Logger_ handler.AdaptHandler_context errors_Is as_APIError].
    match goal with |- context [core.WriteAPIError r ?e ?w0] =>
      destruct (WriteAPIError_appends r e w0) as [Hr _] end.
    rewrite Hr. unfold call_response, call_log. simpl.
    rewrite <- !app_assoc. reflexivity. }
  split; [exact Hresp|].
  intros Hw. rewrite Hresp, Hw. unfold recorder_Code. simpl.
  destruct (String.eqb (Method r) "POST"); reflexivity.
Qed.

Lemma ResponseJSON_marshal_failure_witness :
  recorder_Code
    (response
       (handler.AdaptHandler None 0%nat
          (typed.ResponseJSON
             (fun _ : Z => inr (ErrText "json: unsupported value: NaN"))
             (fun (_ : handler.HandlerContext unit unit) _ w => ((7, None), w)))
          marks.GET_test marks.empty_World))
  = 200.
Proof.
  apply (proj2 (ResponseJSON_marshal_failure_comes_after_the_status
                  unit unit Z
                  (fun _ : Z => inr (ErrText "json: unsupported value: NaN"))
                  None 0%nat (fun _ _ w => ((7, None), w))
                  marks.GET_test marks.empty_World 7
                  (call_log
                     (handler.creating_context_call None 0%nat marks.GET_test)
                     marks.empty_World)
                  (ErrText "json: unsupported value: NaN") eq_refl eq_refl)).
  reflexivity.
Defined.

(** ** The authentication middleware *)

(** X29. [RequireAuth] is a gate.  Without an Authorization header, with
    one that does not start with "Bearer ", or with an empty token, the
    request is refused with a [core.APIError] of code 401 and nothing else
    happens.  The wrapped handler runs only when the secret is set, the
    token validates and the user/company check passes; it then runs on the
    context with [UserUUID] and [CompanyUUID] set to the identities of the
    token.  In every other case, on a context that carries a logger, the
    wrapped handler has no part in the outcome, which is an error. *)
Theorem RequireAuth_is_a_gate (P B R : Type) `{Zero R}
    (ValidateToken : string -> string -> typed.Claims + error)
    (jwtSecret : string)
    (validateUserCompany :
       option DB -> UUID -> UUID -> World -> option error * World)
    (next : handler.Handler P B R)
    (hctx : handler.HandlerContext P B) (r : Request) (w : World) :
  let authHeader := Header_Get (Header r) "Authorization" in
  let token := typed.drop_bytes 7 authHeader in
  let accepted claims w1 :=
    authHeader <> "" /\ String.prefix "Bearer " authHeader = true /\
    token <> "" /\ jwtSecret <> "" /\
    ValidateToken token jwtSecret = inl claims /\
    validateUserCompany (handler.DB_ hctx) (typed.ClaimsUserUUID claims)
      (typed.ClaimsCompanyUUID claims) w = (None, w1) in
  (authHeader = "" \/ String.prefix "Bearer " authHeader = false
   \/ token = "" ->
   exists e,
     typed.RequireAuth ValidateToken jwtSecret validateUserCompany next hctx r w
       = ((zero, Some (ErrAPI e)), w) /\
     Code e = 401) /\
  (forall claims w1, accepted claims w1 ->
     typed.RequireAuth ValidateToken jwtSecret validateUserCompany next hctx r w
     = next
         (handler.mkHandlerContext (handler.Context_ hctx) (handler.DB_ hctx)
            (handler.Logger_ hctx) (handler.Params hctx) (handler.Body hctx)
            (handler.BodyRaw hctx) (handler.Headers hctx)
            (handler.NewNullable (typed.ClaimsUserUUID claims))
            (handler.NewNullable (typed.ClaimsCompanyUUID claims)))
         r w1) /\
  (handler.Logger_ hctx <> None ->
   (forall claims w1, ~ accepted claims w1) ->
   (exists e, snd (fst (typed.RequireAuth ValidateToken jwtSecret
                          validateUserCompany next hctx r w)) = Some e) /\
   forall next' : handler.Handler P B R,
     typed.RequireAuth ValidateToken jwtSecret validateUserCompany next' hctx r w
     = typed.RequireAuth ValidateToken jwtSecret validateUserCompany next hctx
         r w).
Proof.
  intros authHeader token accepted. subst accepted. cbv beta.
  unfold typed.RequireAuth. fold authHeader. fold token.
  split; [|split].
  - intros Hrej.
    destruct (String.eqb_spec authHeader "") as [Ha|Ha].
    { eexists. split; reflexivity. }
    destruct (String.prefix "Bearer " authHeader) eqn:Hp; simpl.
    + destruct (String.eqb_spec token "") as [Ht|Ht].
      { eexists. split; reflexivity. }
      destruct Hrej as [Hr|[Hr|Hr]]; congruence.
    + eexists. split; reflexivity.
  - intros claims w1 (Ha & Hp & Ht & Hs & Hv & Hc).
    apply String.eqb_neq in Ha, Ht, Hs. rewrite Ha, Hp, Ht, Hs. simpl.
    rewrite Hv, Hc. reflexivity.
  - intros _ Hnot.
    destruct (String.eqb_spec authHeader "") as [Ha|Ha].
    { split; [eexists; reflexivity|reflexivity]. }
    destruct (String.prefix "Bearer " authHeader) eqn:Hp; simpl;
      [|split; [eexists; reflexivity|reflexivity]].
    destruct (String.eqb_spec token "") as [Ht|Ht].
    { split; [eexists; reflexivity|reflexivity]. }
    destruct (String.eqb_spec jwtSecret "") as [Hs|Hs].
    { split; [eexists; reflexivity|reflexivity]. }
    destruct (ValidateToken token jwtSecret) as [claims|err] eqn:Hv;
      [|split; [eexists; reflexivity|reflexivity]].
    destruct (validateUserCompany (handler.DB_ hctx)
                (typed.ClaimsUserUUID claims) (typed.ClaimsCompanyUUID claims) w)
      as [[err|] w1] eqn:Hc.
    { split; [eexists; reflexivity|reflexivity]. }
    exfalso. apply (Hnot claims w1). repeat split; assumption.
Qed.

Lemma RequireAuth_is_a_gate_witness :
  exists e,
    typed.RequireAuth (fun _ _ => inr (ErrText "token is expired")) "secret"
      (fun _ _ _ w => (None, w))
      (@marks.marking_handler unit unit unit "H" tt)
      (handler.AdaptHandler_context None 0%nat context_Background)
      (mkRequest "GET" (mkURL "/protected" "") "192.0.2.1:1234"
         {[ "Authorization" := ["Basic dXNlcjpwYXNz"] ]} None)
      marks.empty_World
    = ((tt, Some (ErrAPI e)), marks.empty_World) /\ Code e = 401.
Proof.
  apply (proj1 (RequireAuth_is_a_gate unit unit unit
                  (fun _ _ => inr (ErrText "token is expired")) "secret"
                  (fun _ _ _ w => (None, w))
                  (marks.marking_handler "H" tt)
                  (handler.AdaptHandler_context None 0%nat context_Background)
                  (mkRequest "GET" (mkURL "/protected" "") "192.0.2.1:1234"
                     {[ "Authorization" := ["Basic dXNlcjpwYXNz"] ]} None)
                  marks.empty_World)).
  right. left. reflexivity.
Defined.

(** ** Request identifiers *)

(** X30. [WithRequestID] hands on a request from which [GetRequestID]
    reads the identifier back: the one of the X-Request-ID header when
    there is one, the generated one otherwise.  The identifier is set as
    response header before the next handler runs; the other values of the
    request's context, the method, the URL and the headers are unchanged;
    and a typed handler under the adapter finds the identifier in the
    [Context] of its context. *)
Theorem WithRequestID_round_trip (generated : string) (next : HandlerFunc)
    (r : Request) (w : World) :
  let requestID :=
    if String.eqb (Header_Get (Header r) "X-Request-ID") "" then generated
    else Header_Get (Header r) "X-Request-ID" in
  exists r',
    httpmw.WithRequestID generated next r w =
      next r' (call_response (SetHeader "X-Request-ID" requestID) w) /\
    httpmw.GetRequestID r' = requestID /\
    (forall key, key <> "request_id" ->
       Context_Value (Request_Context r') key
       = Context_Value (Request_Context r) key) /\
    (Method r', Url r', RemoteAddr r', Header r')
      = (Method r, Url r, RemoteAddr r, Header r) /\
    forall (P B : Type) (ZP : Zero P) (ZB : Zero B) (database : option DB)
           (logger : Logger),
      match handler.Context_
              (@handler.AdaptHandler_context P B ZP ZB database logger
                 (Request_Context r')) with
      | Some c => Context_Value c "request_id" = Some requestID
      | None => False
      end.
Proof.
  intros requestID.
  exists (Request_WithContext r
            (context_WithValue (Request_Context r) "request_id" requestID)).
  split; [reflexivity|]. split; [reflexivity|]. split.
  - intros key Hk.
    unfold Request_WithContext, Request_Context at 1.
    cbn [ctx Context_Value].
    destruct (String.eqb_spec "request_id" key); congruence.
  - split; [reflexivity|]. intros. reflexivity.
Qed.

Lemma WithRequestID_round_trip_witness :
  exists r',
    httpmw.WithRequestID "generated" (fun _ w => w)
      (mkRequest "GET" (mkURL "/test" "") "192.0.2.1:1234"
         {[ "X-Request-Id" := ["abc-123"] ]}
         (Some (context_WithValue context_Background "tenant" "acme")))
      marks.empty_World
    = call_response (SetHeader "X-Request-ID" "abc-123") marks.empty_World /\
    httpmw.GetRequestID r' = "abc-123" /\
    Context_Value (Request_Context r') "tenant" = Some "acme".
Proof.
  destruct (WithRequestID_round_trip "generated" (fun _ w => w)
              (mkRequest "GET" (mkURL "/test" "") "192.0.2.1:1234"
                 {[ "X-Request-Id" := ["abc-123"] ]}
                 (Some (context_WithValue context_Background "tenant" "acme")))
              marks.empty_World) as (r' & Hrun & Hget & Hother & _).
  exists r'. split; [exact Hrun|]. split; [exact Hget|].
  rewrite (Hother "tenant"); [reflexivity | discriminate].
Defined.
